(** * AlpacaTradingBot: the rebalancing engine and its monitoring loop

    A shallow embedding of [tradingbot.py].  The bot object is a record that
    is threaded through a state-and-exception monad; every broker call
    ([api.get_clock], [api.get_latest_trade], [api.list_positions],
    [api.submit_order]) is an explicit reply supplied by the environment,
    either a returned value or a raised exception.

    Numbers.  The development has two layers.  In the first, Python
    [float] prices and amounts are exact rationals [Q]: rounding,
    infinities and NaN are outside it.  It carries the whole bot, and the
    properties that do not depend on how a double rounds: guards, frames,
    the order of the extremes, the alternation of sells and buys.  In the
    second, the module [Binary64], the decision and its execution are
    embedded again on IEEE binary64 floats, with Python's conversions
    between [int] and [float] and the exceptions they raise; the sizes of
    the orders and the value of the reserve are stated there.  The share
    counts are Python [int], modelled as [Z].  [int(x)] is truncation
    toward zero, [x / y] raises [ZeroDivisionError] on a zero divisor, and an
    arithmetic operation on [None] raises [TypeError].

    The logger is part of the state (a list of records, oldest first), so
    that "the failure is logged" is a statement about the state.  Text
    written to stdout by [print_daily_summary] is not modelled; the
    exceptions that formatting it can raise are.

    The loop runs over a list of passes, one record of broker replies per
    pass; the user's interrupt arrives during the sleep, when the list is
    used up. *)

From Stdlib Require Import QArith Qround ZArith List String Ascii Bool Lia Lqa.
From Stdlib Require Import Floats.
Import ListNotations.
Open Scope Q_scope.

(** ** Python values *)

Section PythonValues.

(** Truth value of an [Optional[float]]: [None] and [0.0] are falsy. *)
Definition truthy (x : option Q) : bool :=
  match x with
  | None => false
  | Some q => negb (Qeq_bool q 0)
  end.

Definition Qlt_bool (x y : Q) : bool := negb (Qle_bool y x).

(** [int(x)] on a float: truncation toward zero. *)
Definition py_int (x : Q) : Z := Z.quot (Qnum x) (Zpos (Qden x)).

Definition upper_ascii (c : ascii) : ascii :=
  let n := nat_of_ascii c in
  if (Nat.leb 97 n && Nat.leb n 122)%bool then ascii_of_nat (n - 32) else c.

(** [str.upper()] on ASCII text. *)
Fixpoint upper (s : string) : string :=
  match s with
  | EmptyString => EmptyString
  | String c s' => String (upper_ascii c) (upper s')
  end.

End PythonValues.

(** ** Data *)

Inductive side := sell | buy.

(** The dict returned by [get_position]. *)
Record position_dict := {
  qty : Z;
  market_value : Q;
  avg_entry_price : Q;
  unrealized_pl : Q;
  unrealized_plpc : Q
}.

Definition zero_position : position_dict :=
  {| qty := 0; market_value := 0; avg_entry_price := 0;
     unrealized_pl := 0; unrealized_plpc := 0 |}.

(** The dict returned by [get_account_info]. *)
Record account_dict := {
  buying_power : Q;
  cash : Q;
  portfolio_value : Q;
  day_trade_count : Z
}.

(** One element of [api.list_positions()], fields already converted (a
    conversion that raises is part of the reply [Raised] below). *)
Record api_position := {
  symbol : string;
  holding : position_dict
}.

(** The interpolated value of the two [reason] f-strings. *)
Inductive reason :=
| gain_reached (pct_change : Q)
| loss_reached (pct_change : Q).

(** The dict returned by [calculate_rebalance_action].  The keys
    [reserve_cash] and [use_reserve] are read with [.get], so an absent key
    and [False] behave alike: absent is [false] here. *)
Record action_dict := {
  action : side;
  action_qty : Z;
  action_reason : reason;
  reserve_cash : bool;
  use_reserve : bool
}.

(** One element of [trades_today]; [trade_reason] is the side interpolated
    into ["Rebalancing - {side}"]. *)
Record trade := {
  timestamp : Z;
  trade_ticker : option string;
  trade_side : side;
  trade_qty : Z;
  trade_price : option Q;
  trade_reason : side
}.

Inductive exn := ZeroDivisionError | TypeError | KeyboardInterrupt.

Inductive level := INFO | ERROR.

Inductive message :=
| account_error
| price_error (t : option string)
| position_error (t : option string)
| order_placed (sd : side) (q : Z) (t : option string)
| order_error (sd : side) (t : option string)
| reserved_cash (amount : Q)
| used_reserved_cash
| execute_error (e : exn)
| market_status_error
| starting (t : option string)
| no_initial_price (t : option string)
| initial_price_is (t : option string) (p : option Q)
| initial_position_is (p : position_dict)
| status (price pct_change : Q) (q : Z) (reserve : Q) (time_now : Z)
| rebalancing_action (r : reason)
| rebalancing_ok
| rebalancing_failed
| stopped_by_user
| loop_error (e : exn)
| stopped.

(** The attributes of [AlpacaTradingBot] (without the [api] handle, whose
    replies are arguments of the methods below). *)
Record Bot := {
  ticker : option string;
  initial_price : option Q;
  current_price : option Q;
  daily_high : option Q;
  daily_low : option Q;
  position_size : Z;
  cash_reserve : Q;
  gain_threshold : Q;
  loss_threshold : Q;
  trades_today : list trade;
  is_running : bool;
  logger : list (level * message)
}.

(** [__init__]. *)
Definition init : Bot :=
  {| ticker := None;
     initial_price := None;
     current_price := None;
     daily_high := None;
     daily_low := None;
     position_size := 0;
     cash_reserve := 0;
     gain_threshold := 0.05;
     loss_threshold := 0.10;
     trades_today := [];
     is_running := false;
     logger := [] |}.

Section Setters.

Definition set_ticker (v : option string) (b : Bot) : Bot :=
  {| ticker := v; initial_price := initial_price b;
     current_price := current_price b; daily_high := daily_high b;
     daily_low := daily_low b; position_size := position_size b;
     cash_reserve := cash_reserve b; gain_threshold := gain_threshold b;
     loss_threshold := loss_threshold b; trades_today := trades_today b;
     is_running := is_running b; logger := logger b |}.

Definition set_initial_price (v : option Q) (b : Bot) : Bot :=
  {| ticker := ticker b; initial_price := v;
     current_price := current_price b; daily_high := daily_high b;
     daily_low := daily_low b; position_size := position_size b;
     cash_reserve := cash_reserve b; gain_threshold := gain_threshold b;
     loss_threshold := loss_threshold b; trades_today := trades_today b;
     is_running := is_running b; logger := logger b |}.

Definition set_current_price (v : option Q) (b : Bot) : Bot :=
  {| ticker := ticker b; initial_price := initial_price b;
     current_price := v; daily_high := daily_high b;
     daily_low := daily_low b; position_size := position_size b;
     cash_reserve := cash_reserve b; gain_threshold := gain_threshold b;
     loss_threshold := loss_threshold b; trades_today := trades_today b;
     is_running := is_running b; logger := logger b |}.

Definition set_daily_high (v : option Q) (b : Bot) : Bot :=
  {| ticker := ticker b; initial_price := initial_price b;
     current_price := current_price b; daily_high := v;
     daily_low := daily_low b; position_size := position_size b;
     cash_reserve := cash_reserve b; gain_threshold := gain_threshold b;
     loss_threshold := loss_threshold b; trades_today := trades_today b;
     is_running := is_running b; logger := logger b |}.

Definition set_daily_low (v : option Q) (b : Bot) : Bot :=
  {| ticker := ticker b; initial_price := initial_price b;
     current_price := current_price b; daily_high := daily_high b;
     daily_low := v; position_size := position_size b;
     cash_reserve := cash_reserve b; gain_threshold := gain_threshold b;
     loss_threshold := loss_threshold b; trades_today := trades_today b;
     is_running := is_running b; logger := logger b |}.

Definition set_cash_reserve (v : Q) (b : Bot) : Bot :=
  {| ticker := ticker b; initial_price := initial_price b;
     current_price := current_price b; daily_high := daily_high b;
     daily_low := daily_low b; position_size := position_size b;
     cash_reserve := v; gain_threshold := gain_threshold b;
     loss_threshold := loss_threshold b; trades_today := trades_today b;
     is_running := is_running b; logger := logger b |}.

Definition set_trades_today (v : list trade) (b : Bot) : Bot :=
  {| ticker := ticker b; initial_price := initial_price b;
     current_price := current_price b; daily_high := daily_high b;
     daily_low := daily_low b; position_size := position_size b;
     cash_reserve := cash_reserve b; gain_threshold := gain_threshold b;
     loss_threshold := loss_threshold b; trades_today := v;
     is_running := is_running b; logger := logger b |}.

Definition set_is_running (v : bool) (b : Bot) : Bot :=
  {| ticker := ticker b; initial_price := initial_price b;
     current_price := current_price b; daily_high := daily_high b;
     daily_low := daily_low b; position_size := position_size b;
     cash_reserve := cash_reserve b; gain_threshold := gain_threshold b;
     loss_threshold := loss_threshold b; trades_today := trades_today b;
     is_running := v; logger := logger b |}.

Definition set_logger (v : list (level * message)) (b : Bot) : Bot :=
  {| ticker := ticker b; initial_price := initial_price b;
     current_price := current_price b; daily_high := daily_high b;
     daily_low := daily_low b; position_size := position_size b;
     cash_reserve := cash_reserve b; gain_threshold := gain_threshold b;
     loss_threshold := loss_threshold b; trades_today := trades_today b;
     is_running := is_running b; logger := v |}.

End Setters.

(** ** The monad of the methods: state [Bot], exceptions [exn] *)

Inductive outcome (A : Type) :=
| Val (a : A)
| Exc (e : exn).
Arguments Val {A} a.
Arguments Exc {A} e.

Definition M (A : Type) : Type := Bot -> outcome A * Bot.

Definition ret {A} (a : A) : M A := fun s => (Val a, s).

Definition bind {A B} (m : M A) (k : A -> M B) : M B :=
  fun s =>
    match m s with
    | (Val a, s') => k a s'
    | (Exc e, s') => (Exc e, s')
    end.

Definition raise {A} (e : exn) : M A := fun s => (Exc e, s).

Definition get : M Bot := fun s => (Val s, s).

Definition modify (f : Bot -> Bot) : M unit := fun s => (Val tt, f s).

(** [try: m except ...: h e]; the handler declines ([None]) the exceptions
    its [except] clauses do not name. *)
Definition try_except {A} (m : M A) (h : exn -> option (M A)) : M A :=
  fun s =>
    match m s with
    | (Val a, s') => (Val a, s')
    | (Exc e, s') =>
        match h e with
        | Some k => k s'
        | None => (Exc e, s')
        end
    end.

Declare Scope bot_scope.
Delimit Scope bot_scope with bot.
Notation "x <- m ;; k" := (bind m (fun x => k))
  (at level 100, m at next level, right associativity) : bot_scope.
Notation "m ;; k" := (bind m (fun _ => k))
  (at level 100, right associativity) : bot_scope.
Open Scope bot_scope.

(** [except Exception]: every exception of the model but
    [KeyboardInterrupt]. *)
Definition except_Exception {A} (h : exn -> M A) (e : exn) : option (M A) :=
  match e with
  | KeyboardInterrupt => None
  | _ => Some (h e)
  end.

Definition log (l : level) (m : message) : M unit :=
  modify (fun s => set_logger (logger s ++ [(l, m)]) s).

(** A float operand: arithmetic on [None] raises [TypeError]. *)
Definition num (x : option Q) : M Q :=
  match x with
  | Some q => ret q
  | None => raise TypeError
  end.

(** [a / b] on floats. *)
Definition py_div (a b : Q) : M Q :=
  if Qeq_bool b 0 then raise ZeroDivisionError else ret (a / b).

(** [max(a, b)]: the first argument unless the second is greater. *)
Definition py_max (a b : option Q) : M Q :=
  x <- num a ;;
  y <- num b ;;
  ret (if Qlt_bool x y then y else x).

(** [min(a, b)]: the first argument unless the second is smaller. *)
Definition py_min (a b : option Q) : M Q :=
  x <- num a ;;
  y <- num b ;;
  ret (if Qlt_bool y x then y else x).

(** ** Broker replies *)

Inductive reply (A : Type) :=
| Returned (a : A)
| Raised.
Arguments Returned {A} a.
Arguments Raised {A}.

Record clock := { is_open : bool }.

(** What the broker answers during one pass of the [while] loop, and the two
    readings of [datetime.now()]. *)
Record replies := {
  get_clock : reply clock;
  get_latest_trade : reply Q;
  list_positions_status : reply (list api_position);
  list_positions_decide : reply (list api_position);
  submit_order : reply unit;
  now_status : Z;
  now_trade : Z
}.

(** ** The methods *)

(** [get_account_info]: the empty dict ([None] here, logged) when the lookup
    raises. *)
Definition get_account_info (account : reply account_dict)
  : M (option account_dict) :=
  match account with
  | Returned a => ret (Some a)
  | Raised => log ERROR account_error ;; ret None
  end.

(** [get_current_price]: the price of the latest trade, [None] (logged) when
    the lookup raises. *)
Definition get_current_price (latest_trade : reply Q) (t : option string)
  : M (option Q) :=
  match latest_trade with
  | Returned price => ret (Some price)
  | Raised => log ERROR (price_error t) ;; ret None
  end.

(** The [for] loop of [get_position]: the first listed position whose symbol
    is the ticker. *)
Fixpoint first_match (positions : list api_position) (t : option string)
  : option position_dict :=
  match positions with
  | [] => None
  | p :: rest =>
      match t with
      | Some name =>
          if String.eqb (symbol p) name then Some (holding p)
          else first_match rest t
      | None => first_match rest t
      end
  end.

(** [get_position]: the all-zero dict when the ticker is not held, and also
    (logged) when the lookup raises. *)
Definition get_position (positions : reply (list api_position))
  (t : option string) : M position_dict :=
  match positions with
  | Returned l =>
      match first_match l t with
      | Some d => ret d
      | None => ret zero_position
      end
  | Raised => log ERROR (position_error t) ;; ret zero_position
  end.

(** [place_order]: the trade is recorded after [api.submit_order] returned;
    what is sent to the broker ([abs(qty)], a market order for the day) is
    behind its reply [order]. *)
Definition place_order (order : reply unit) (now : Z) (t : option string)
  (q : Z) (sd : side) : M bool :=
  match order with
  | Returned _ =>
      log INFO (order_placed sd q t) ;;
      self <- get ;;
      modify (set_trades_today
                (trades_today self ++
                   [{| timestamp := now; trade_ticker := t; trade_side := sd;
                       trade_qty := q; trade_price := current_price self;
                       trade_reason := sd |}])) ;;
      ret true
  | Raised => log ERROR (order_error sd t) ;; ret false
  end.

(** [calculate_rebalance_action]. *)
Definition calculate_rebalance_action (positions : reply (list api_position))
  : M (option action_dict) :=
  self <- get ;;
  if negb (truthy (initial_price self)) || negb (truthy (current_price self))
  then ret None
  else
    cp <- num (current_price self) ;;
    ip <- num (initial_price self) ;;
    pct_change <- py_div (cp - ip) ip ;;
    position <- get_position positions (ticker self) ;;
    let current_qty := qty position in
    if Qle_bool (gain_threshold self) pct_change
       && Qeq_bool (cash_reserve self) 0
    then
      if (0 <? current_qty)%Z then
        let sell_qty := Z.max 1 (py_int (inject_Z current_qty * 0.05)) in
        ret (Some {| action := sell; action_qty := sell_qty;
                     action_reason := gain_reached pct_change;
                     reserve_cash := true; use_reserve := false |})
      else ret None
    else if Qle_bool pct_change (- loss_threshold self)
            && Qlt_bool 0 (cash_reserve self)
    then
      if Qlt_bool 0 (cash_reserve self) && Qlt_bool 0 cp then
        quotient <- py_div (cash_reserve self) cp ;;
        let buy_qty := py_int quotient in
        if (0 <? buy_qty)%Z then
          ret (Some {| action := buy; action_qty := buy_qty;
                       action_reason := loss_reached pct_change;
                       reserve_cash := false; use_reserve := true |})
        else ret None
      else ret None
    else ret None.

(** [execute_rebalance]. *)
Definition execute_rebalance (a : action_dict) (order : reply unit) (now : Z)
  : M bool :=
  try_except
    (self <- get ;;
     success <- place_order order now (ticker self) (action_qty a) (action a) ;;
     (if success then
        if reserve_cash a then
          self <- get ;;
          cp <- num (current_price self) ;;
          modify (set_cash_reserve (inject_Z (action_qty a) * cp)) ;;
          log INFO (reserved_cash (inject_Z (action_qty a) * cp))
        else if use_reserve a then
          modify (set_cash_reserve 0) ;;
          log INFO used_reserved_cash
        else ret tt
      else ret tt) ;;
     ret success)
    (except_Exception
       (fun e => log ERROR (execute_error e) ;; ret false)).

(** [is_market_open]: the clock that [api.get_clock] returns is not read. *)
Definition is_market_open (c : reply clock) : M bool :=
  match c with
  | Returned _ => ret true
  | Raised => log ERROR market_status_error ;; ret false
  end.

(** [time.sleep]: nothing happens to the bot; an interrupt during the sleep
    is the end of the list of passes in [while_loop]. *)
Definition sleep (seconds : Z) : M unit := ret tt.

(** The body of the [while] loop of [start_monitoring], up to and including
    [time.sleep(30)]. *)
Definition loop_body (t : replies) : M unit :=
  self <- get ;;
  price <- get_current_price (get_latest_trade t) (ticker self) ;;
  (if truthy price then
     modify (set_current_price price) ;;
     self <- get ;;
     high <- py_max (daily_high self) price ;;
     modify (set_daily_high (Some high)) ;;
     self <- get ;;
     low <- py_min (daily_low self) price ;;
     modify (set_daily_low (Some low)) ;;
     self <- get ;;
     cp <- num price ;;
     ip <- num (initial_price self) ;;
     pct_change <- py_div (cp - ip) ip ;;
     position <- get_position (list_positions_status t) (ticker self) ;;
     self <- get ;;
     log INFO (status cp pct_change (qty position) (cash_reserve self)
                 (now_status t)) ;;
     act <- calculate_rebalance_action (list_positions_decide t) ;;
     match act with
     | Some a =>
         log INFO (rebalancing_action (action_reason a)) ;;
         success <- execute_rebalance a (submit_order t) (now_trade t) ;;
         if success then log INFO rebalancing_ok
         else log ERROR rebalancing_failed
     | None => ret tt
     end
   else ret tt) ;;
  sleep 30.

(** [while self.is_running and self.is_market_open(): ...].  Each element of
    [ticks] is one pass; when the list is used up the user interrupts the
    sleep ([KeyboardInterrupt]). *)
Fixpoint while_loop (ticks : list replies) : M unit :=
  match ticks with
  | [] => raise KeyboardInterrupt
  | t :: rest =>
      self <- get ;;
      continue <- (if is_running self then is_market_open (get_clock t)
                   else ret false) ;;
      if continue then loop_body t ;; while_loop rest else ret tt
  end.

(** The lines of [print_daily_summary] that print the ledger: formatting
    [trade['price']] with [:.2f] raises [TypeError] on a trade whose price
    is [None]. *)
Fixpoint print_trades (trades : list trade) : M unit :=
  match trades with
  | [] => ret tt
  | tr :: rest => num (trade_price tr) ;; print_trades rest
  end.

(** [print_daily_summary]: the text goes to stdout, which is not modelled.
    What is modelled is what can raise (the division, and the formatting of
    a number that is [None]) and the two lookups, which can log. *)
Definition print_daily_summary (final_positions : reply (list api_position))
  (account : reply account_dict) : M unit :=
  self <- get ;;
  (if truthy (initial_price self) && truthy (current_price self) then
     cp <- num (current_price self) ;;
     ip <- num (initial_price self) ;;
     total_change <- py_div (cp - ip) ip ;;
     num (daily_high self) ;;
     num (daily_low self) ;;
     ret tt
   else ret tt) ;;
  final_position <- get_position final_positions (ticker self) ;;
  self <- get ;;
  print_trades (trades_today self) ;;
  account_info <- get_account_info account ;;
  ret tt.

(** [stop_monitoring]. *)
Definition stop_monitoring (final_positions : reply (list api_position))
  (account : reply account_dict) : M unit :=
  modify (set_is_running false) ;;
  log INFO stopped ;;
  self <- get ;;
  match ticker self with
  | Some (String _ _) => print_daily_summary final_positions account
  | _ => ret tt
  end.

(** [start_monitoring]. *)
Definition start_monitoring (name : string) (first_trade : reply Q)
  (first_positions : reply (list api_position)) (ticks : list replies)
  (final_positions : reply (list api_position))
  (account : reply account_dict) : M unit :=
  modify (set_ticker (Some (upper name))) ;;
  self <- get ;;
  log INFO (starting (ticker self)) ;;
  price <- get_current_price first_trade (ticker self) ;;
  modify (set_initial_price price) ;;
  self <- get ;;
  if negb (truthy (initial_price self)) then
    log ERROR (no_initial_price (ticker self))
  else
    modify (set_daily_high (initial_price self)) ;;
    modify (set_daily_low (initial_price self)) ;;
    modify (set_current_price (initial_price self)) ;;
    log INFO (initial_price_is (ticker self) (initial_price self)) ;;
    initial_position <- get_position first_positions (ticker self) ;;
    log INFO (initial_position_is initial_position) ;;
    modify (set_is_running true) ;;
    try_except (while_loop ticks)
      (fun e =>
         match e with
         | KeyboardInterrupt => Some (log INFO stopped_by_user)
         | _ => Some (log ERROR (loop_error e))
         end) ;;
    stop_monitoring final_positions account.


(** ** Frames: what a method leaves unchanged *)

(** [s'] is [s] with more records in the logger and nothing else changed. *)
Definition logged_only (s s' : Bot) : Prop :=
  exists l, s' = set_logger (logger s ++ l) s.

(** ** The decision as a function of what [calculate_rebalance_action] reads *)

(** The two branches of [calculate_rebalance_action] once both prices are
    known to be non-zero: a proof device, equal to the method by
    [calculate_rebalance_action_decides]. *)
Definition branches (g l reserve ip cp : Q) (current_qty : Z)
  : option action_dict :=
  let pct_change := (cp - ip) / ip in
  if Qle_bool g pct_change && Qeq_bool reserve 0 then
    if (0 <? current_qty)%Z then
      Some {| action := sell;
              action_qty := Z.max 1 (py_int (inject_Z current_qty * 0.05));
              action_reason := gain_reached pct_change;
              reserve_cash := true; use_reserve := false |}
    else None
  else if Qle_bool pct_change (- l) && Qlt_bool 0 reserve then
    if Qlt_bool 0 reserve && Qlt_bool 0 cp then
      if (0 <? py_int (reserve / cp))%Z then
        Some {| action := buy; action_qty := py_int (reserve / cp);
                action_reason := loss_reached pct_change;
                reserve_cash := false; use_reserve := true |}
      else None
    else None
  else None.


(** [m] relates every state it is run from to the state it leaves, whether
    it returns or raises. *)
Definition effect {A} (R : Bot -> Bot -> Prop) (m : M A) : Prop :=
  forall s, R s (snd (m s)).

(** The money side of the session is untouched: reserve, ledger, reference
    price and strategy parameters. *)
Definition fin_same (s s' : Bot) : Prop :=
  cash_reserve s' = cash_reserve s
  /\ trades_today s' = trades_today s
  /\ initial_price s' = initial_price s
  /\ gain_threshold s' = gain_threshold s
  /\ loss_threshold s' = loss_threshold s.

(** The price side of the session is untouched. *)
Definition ext_same (s s' : Bot) : Prop :=
  initial_price s' = initial_price s
  /\ current_price s' = current_price s
  /\ daily_high s' = daily_high s
  /\ daily_low s' = daily_low s.

(** ** Sessions and broker answers used in the examples *)

(** A running session on ["AAPL"] with reference price [r], at price [p],
    holding [reserve] in cash. *)
Definition session_at (r p reserve : Q) : Bot :=
  set_is_running true
    (set_cash_reserve reserve
       (set_current_price (Some p)
          (set_daily_low (Some r)
             (set_daily_high (Some r)
                (set_initial_price (Some r)
                   (set_ticker (Some "AAPL"%string) init)))))).

(** The broker lists one position: [n] shares of ["AAPL"]. *)
Definition holds (n : Z) : reply (list api_position) :=
  Returned
    [{| symbol := "AAPL"%string;
        holding := {| qty := n; market_value := 0; avg_entry_price := 0;
                      unrealized_pl := 0; unrealized_plpc := 0 |} |}].

(** One pass of the loop in which every lookup succeeds. *)
Definition pass_at (p : Q) (n : Z) : replies :=
  {| get_clock := Returned {| is_open := true |};
     get_latest_trade := Returned p;
     list_positions_status := holds n;
     list_positions_decide := holds n;
     submit_order := Returned tt;
     now_status := 0; now_trade := 0 |}.

(** One pass in which the price is quoted and both position lookups raise. *)
Definition pass_without_position (p : Q) : replies :=
  {| get_clock := Returned {| is_open := true |};
     get_latest_trade := Returned p;
     list_positions_status := Raised;
     list_positions_decide := Raised;
     submit_order := Returned tt;
     now_status := 0; now_trade := 0 |}.

(** One pass in which the clock says that the market is closed. *)
Definition pass_market_closed (p : Q) (n : Z) : replies :=
  {| get_clock := Returned {| is_open := false |};
     get_latest_trade := Returned p;
     list_positions_status := holds n;
     list_positions_decide := holds n;
     submit_order := Returned tt;
     now_status := 0; now_trade := 0 |}.

(** One pass in which the broker refuses the order. *)
Definition pass_refused (p : Q) (n : Z) : replies :=
  {| get_clock := Returned {| is_open := true |};
     get_latest_trade := Returned p;
     list_positions_status := holds n;
     list_positions_decide := holds n;
     submit_order := Raised;
     now_status := 0; now_trade := 0 |}.

Definition sell_five : action_dict :=
  {| action := sell; action_qty := 5;
     action_reason := gain_reached ((105 - 100) / 100);
     reserve_cash := true; use_reserve := false |}.

(** ** The parts of one pass *)

(** The end of the loop body, from the call of
    [calculate_rebalance_action] to the two "Rebalancing ..." records: a
    proof device, tied to [loop_body] by [loop_body_priced]. *)
Definition rebalance (t : replies) : M unit :=
  act <- calculate_rebalance_action (list_positions_decide t) ;;
  match act with
  | Some a =>
      log INFO (rebalancing_action (action_reason a)) ;;
      success <- execute_rebalance a (submit_order t) (now_trade t) ;;
      if success then log INFO rebalancing_ok
      else log ERROR rebalancing_failed
  | None => ret tt
  end.

(** The session once the price [p] of this pass is taken in: the first
    three assignments of the loop body. *)
Definition observe (p h l : Q) (s : Bot) : Bot :=
  set_daily_low (Some (if Qlt_bool p l then p else l))
    (set_daily_high (Some (if Qlt_bool h p then p else h))
       (set_current_price (Some p) s)).

(** The states a session passes through: any number of market checks and
    passes of the loop body, whatever the broker answers. *)
Inductive reachable (s0 : Bot) : Bot -> Prop :=
| reach_start : reachable s0 s0
| reach_check (c : reply clock) (s : Bot) :
    reachable s0 s -> reachable s0 (snd (is_market_open c s))
| reach_body (t : replies) (s : Bot) :
    reachable s0 s -> reachable s0 (snd (loop_body t s)).

(** What one pass does to the reserve and the ledger. *)
Inductive reserve_update (s s' : Bot) : Prop :=
| no_update :
    cash_reserve s' = cash_reserve s ->
    trades_today s' = trades_today s ->
    reserve_update s s'
| sets_reserve (tr : trade) :
    trades_today s' = trades_today s ++ [tr] ->
    trade_side tr = sell ->
    cash_reserve s == 0 ->
    0 < cash_reserve s' ->
    reserve_update s s'
| clears_reserve (tr : trade) :
    trades_today s' = trades_today s ++ [tr] ->
    trade_side tr = buy ->
    0 < cash_reserve s ->
    cash_reserve s' = 0 ->
    reserve_update s s'.

(** The price lookup of a pass yields nothing the loop acts on. *)
Definition price_absent (t : replies) : Prop :=
  get_latest_trade t = Raised
  \/ exists p, get_latest_trade t = Returned p /\ p == 0.

(** One pass in which the price lookup raises. *)
Definition pass_unpriced (n : Z) : replies :=
  {| get_clock := Returned {| is_open := true |};
     get_latest_trade := Raised;
     list_positions_status := holds n;
     list_positions_decide := holds n;
     submit_order := Returned tt;
     now_status := 0; now_trade := 0 |}.

(** Reference price and strategy parameters are untouched. *)
Definition config_same (s s' : Bot) : Prop :=
  initial_price s' = initial_price s
  /\ gain_threshold s' = gain_threshold s
  /\ loss_threshold s' = loss_threshold s
  /\ ticker s' = ticker s.

(** The effect of a pass on the reserve, in a session with a positive
    reference price and the gain threshold of [__init__]. *)
Definition updates (s s' : Bot) : Prop :=
  (exists r, initial_price s = Some r /\ 0 < r) ->
  gain_threshold s = 0.05 ->
  reserve_update s s'.

(** The logger only grows. *)
Definition log_extends (s s' : Bot) : Prop :=
  exists l, logger s' = logger s ++ l.

(** The running extremes enclose the reference price [r] and the current
    price. *)
Definition extremes_hold (r : Q) (s : Bot) : Prop :=
  initial_price s = Some r
  /\ exists c h l,
       current_price s = Some c
       /\ daily_high s = Some h
       /\ daily_low s = Some l
       /\ l <= r /\ r <= h /\ l <= c /\ c <= h.

(** From [s] to [s'] the high has not decreased and the low has not
    increased. *)
Definition widened (s s' : Bot) : Prop :=
  forall h l,
    daily_high s = Some h -> daily_low s = Some l ->
    exists h' l',
      daily_high s' = Some h' /\ daily_low s' = Some l'
      /\ h <= h' /\ l' <= l.

(** The account lookup of the daily summary raises. *)
Definition no_account : reply account_dict := Raised.

(** ** Vocabulary of the further properties *)

(** Ledger and logger only grow at the end. *)
Definition append_only (s s' : Bot) : Prop :=
  (exists l, trades_today s' = trades_today s ++ l)
  /\ (exists l, logger s' = logger s ++ l).

(** A pass records nothing, or one trade of at least one share at the
    current price of the session. *)
Definition one_trade (s s' : Bot) : Prop :=
  trades_today s' = trades_today s
  \/ exists tr,
       trades_today s' = trades_today s ++ [tr]
       /\ (1 <= trade_qty tr)%Z
       /\ trade_price tr = current_price s'
       /\ trade_ticker tr = ticker s'.

(** The side that the [i]-th trade of a session has when sells and buys
    take turns, the first being a sell. *)
Definition turn (i : nat) : side := if Nat.even i then sell else buy.

(** The ledger takes turns, and the reserve is held exactly after a sell. *)
Definition books_in_step (s : Bot) : Prop :=
  (forall i tr, nth_error (trades_today s) i = Some tr ->
                trade_side tr = turn i)
  /\ (Nat.even (List.length (trades_today s)) = true ->
      cash_reserve s == 0)
  /\ (Nat.even (List.length (trades_today s)) = false ->
      0 < cash_reserve s).

(** The prices quoted over a list of passes. *)
Fixpoint quotes (ticks : list replies) : list Q :=
  match ticks with
  | [] => []
  | t :: rest =>
      match get_latest_trade t with
      | Returned p => p :: quotes rest
      | Raised => quotes rest
      end
  end.

(** The broker lists [n] shares of ["MSFT"] before [m] shares of ["AAPL"]
    and a second, later entry for ["AAPL"]. *)
Definition two_listed (n m : Z) : list api_position :=
  [{| symbol := "MSFT"%string;
      holding := {| qty := n; market_value := 0; avg_entry_price := 0;
                    unrealized_pl := 0; unrealized_plpc := 0 |} |};
   {| symbol := "AAPL"%string;
      holding := {| qty := m; market_value := 0; avg_entry_price := 0;
                    unrealized_pl := 0; unrealized_plpc := 0 |} |};
   {| symbol := "AAPL"%string;
      holding := {| qty := 7; market_value := 0; avg_entry_price := 0;
                    unrealized_pl := 0; unrealized_plpc := 0 |} |}].

(** ** The decision and its execution on IEEE doubles

    The methods above compute on exact rationals; that is enough for what
    does not depend on rounding (which branch is guarded by what, what a
    pass leaves unchanged, the order of the extremes).  The quantities the
    bot trades and the reserve it stores are results of double arithmetic,
    and there the rounded value matters: [(3.15 - 3.00) / 3.00 >= 0.05] is
    false on doubles, [int(5.5 / 1.1)] is 5.  This module embeds
    [get_position], [place_order], [calculate_rebalance_action] and
    [execute_rebalance] once more, on the kernel's binary64 floats, with the
    two conversions Python makes: [int] to [float] in [int * float]
    (correctly rounded, [OverflowError] beyond the range of a double) and
    [int(x)] (truncation, [ValueError] on NaN, [OverflowError] on an
    infinity).  A float literal is the nearest double, as in Python. *)

Module Binary64.

#[local] Set Warnings "-inexact-float".
#[local] Open Scope float_scope.

Inductive exn := ZeroDivisionError | TypeError | OverflowError | ValueError.

Inductive outcome (A : Type) :=
| Val (a : A)
| Exc (e : exn).
Arguments Val {A} a.
Arguments Exc {A} e.

(** *** Python numbers *)

(** Truth value of an [Optional[float]]: [None], [0.0] and [-0.0] are
    falsy, NaN is truthy. *)
Definition truthy (x : option float) : bool :=
  match x with
  | None => false
  | Some f => negb (f =? 0)
  end.

(** The double nearest to an integer (ties to even), an infinity when the
    integer is beyond the doubles. *)
Definition float_of_Z (z : Z) : float :=
  SF2Prim (binary_normalize prec emax z 0 false).

(** The conversion of the [int] operand of [int * float]. *)
Definition float_of_int (z : Z) : outcome float :=
  let x := float_of_Z z in
  if is_infinity x then Exc OverflowError else Val x.

(** The integer part of a finite double, toward zero. *)
Definition trunc (x : float) : Z :=
  match Prim2SF x with
  | S754_finite s m e =>
      if s then Z.opp (Z.shiftl (Zpos m) e) else Z.shiftl (Zpos m) e
  | _ => 0%Z
  end.

(** [int(x)]. *)
Definition int_of_float (x : float) : outcome Z :=
  if is_nan x then Exc ValueError
  else if is_infinity x then Exc OverflowError
  else Val (trunc x).

(** The real number a finite double stands for (0 for the others). *)
Definition real_value (x : float) : Q :=
  match Prim2SF x with
  | S754_finite s m e =>
      (inject_Z (if s then Zneg m else Zpos m) * Qpower 2 e)%Q
  | _ => 0%Q
  end.

(** [int(q * 0.05)] and [floor(q / 20)] agree at [q]; [agree_from n q]:
    they agree at the [n] integers from [q] on. *)
Definition five_percent_agrees (q : Z) : bool :=
  match float_of_int q with
  | Val x =>
      match int_of_float (x * 0.05) with
      | Val k => Z.eqb k (q / 20)
      | Exc _ => false
      end
  | Exc _ => false
  end.

Fixpoint agree_from (n : nat) (q : Z) : bool :=
  match n with
  | O => true
  | S m => five_percent_agrees q && agree_from m (q + 1)
  end.

(** *** Data *)

Record position_dict := {
  qty : Z;
  market_value : float;
  avg_entry_price : float;
  unrealized_pl : float;
  unrealized_plpc : float
}.

Definition zero_position : position_dict :=
  {| qty := 0; market_value := 0; avg_entry_price := 0;
     unrealized_pl := 0; unrealized_plpc := 0 |}.

Record api_position := {
  symbol : string;
  holding : position_dict
}.

Inductive reason :=
| gain_reached (pct_change : float)
| loss_reached (pct_change : float).

Record action_dict := {
  action : side;
  action_qty : Z;
  action_reason : reason;
  reserve_cash : bool;
  use_reserve : bool
}.

Record trade := {
  timestamp : Z;
  trade_ticker : option string;
  trade_side : side;
  trade_qty : Z;
  trade_price : option float;
  trade_reason : side
}.

(** The records the four methods log. *)
Inductive message :=
| position_error (t : option string)
| order_placed (sd : side) (q : Z) (t : option string)
| order_error (sd : side) (t : option string)
| reserved_cash (amount : float)
| used_reserved_cash
| execute_error (e : exn).

Record Bot := {
  ticker : option string;
  initial_price : option float;
  current_price : option float;
  daily_high : option float;
  daily_low : option float;
  position_size : Z;
  cash_reserve : float;
  gain_threshold : float;
  loss_threshold : float;
  trades_today : list trade;
  is_running : bool;
  logger : list (level * message)
}.

(** [__init__]. *)
Definition init : Bot :=
  {| ticker := None;
     initial_price := None;
     current_price := None;
     daily_high := None;
     daily_low := None;
     position_size := 0;
     cash_reserve := 0;
     gain_threshold := 0.05;
     loss_threshold := 0.10;
     trades_today := [];
     is_running := false;
     logger := [] |}.

Definition set_cash_reserve (v : float) (b : Bot) : Bot :=
  {| ticker := ticker b; initial_price := initial_price b;
     current_price := current_price b; daily_high := daily_high b;
     daily_low := daily_low b; position_size := position_size b;
     cash_reserve := v; gain_threshold := gain_threshold b;
     loss_threshold := loss_threshold b; trades_today := trades_today b;
     is_running := is_running b; logger := logger b |}.

Definition set_trades_today (v : list trade) (b : Bot) : Bot :=
  {| ticker := ticker b; initial_price := initial_price b;
     current_price := current_price b; daily_high := daily_high b;
     daily_low := daily_low b; position_size := position_size b;
     cash_reserve := cash_reserve b; gain_threshold := gain_threshold b;
     loss_threshold := loss_threshold b; trades_today := v;
     is_running := is_running b; logger := logger b |}.

Definition set_logger (v : list (level * message)) (b : Bot) : Bot :=
  {| ticker := ticker b; initial_price := initial_price b;
     current_price := current_price b; daily_high := daily_high b;
     daily_low := daily_low b; position_size := position_size b;
     cash_reserve := cash_reserve b; gain_threshold := gain_threshold b;
     loss_threshold := loss_threshold b; trades_today := trades_today b;
     is_running := is_running b; logger := v |}.

(** *** The monad *)

Definition M (A : Type) : Type := Bot -> outcome A * Bot.

Definition ret {A} (a : A) : M A := fun s => (Val a, s).

Definition bind {A B} (m : M A) (k : A -> M B) : M B :=
  fun s =>
    match m s with
    | (Val a, s') => k a s'
    | (Exc e, s') => (Exc e, s')
    end.

Definition raise {A} (e : exn) : M A := fun s => (Exc e, s).

(** A computation that reads no state. *)
Definition lift {A} (o : outcome A) : M A := fun s => (o, s).

Definition get : M Bot := fun s => (Val s, s).

Definition modify (f : Bot -> Bot) : M unit := fun s => (Val tt, f s).

(** [try: m except Exception as e: h e]: the four exceptions are all
    subclasses of [Exception]. *)
Definition try_except {A} (m : M A) (h : exn -> M A) : M A :=
  fun s =>
    match m s with
    | (Val a, s') => (Val a, s')
    | (Exc e, s') => h e s'
    end.

Declare Scope bot64_scope.
Notation "x <- m ;; k" := (bind m (fun x => k))
  (at level 100, m at next level, right associativity) : bot64_scope.
Notation "m ;; k" := (bind m (fun _ => k))
  (at level 100, right associativity) : bot64_scope.
#[local] Open Scope bot64_scope.

Definition log (l : level) (m : message) : M unit :=
  modify (fun s => set_logger (logger s ++ [(l, m)]) s).

Definition num (x : option float) : M float :=
  match x with
  | Some f => ret f
  | None => raise TypeError
  end.

(** [a / b] on floats. *)
Definition py_div (a b : float) : M float :=
  if b =? 0 then raise ZeroDivisionError else ret (a / b).

(** *** The methods *)

Fixpoint first_match (positions : list api_position) (t : option string)
  : option position_dict :=
  match positions with
  | [] => None
  | p :: rest =>
      match t with
      | Some name =>
          if String.eqb (symbol p) name then Some (holding p)
          else first_match rest t
      | None => first_match rest t
      end
  end.

(** [get_position]. *)
Definition get_position (positions : reply (list api_position))
  (t : option string) : M position_dict :=
  match positions with
  | Returned l =>
      match first_match l t with
      | Some d => ret d
      | None => ret zero_position
      end
  | Raised => log ERROR (position_error t) ;; ret zero_position
  end.

(** [place_order]. *)
Definition place_order (order : reply unit) (now : Z) (t : option string)
  (q : Z) (sd : side) : M bool :=
  match order with
  | Returned _ =>
      log INFO (order_placed sd q t) ;;
      self <- get ;;
      modify (set_trades_today
                (trades_today self ++
                   [{| timestamp := now; trade_ticker := t; trade_side := sd;
                       trade_qty := q; trade_price := current_price self;
                       trade_reason := sd |}])) ;;
      ret true
  | Raised => log ERROR (order_error sd t) ;; ret false
  end.

(** [calculate_rebalance_action]. *)
Definition calculate_rebalance_action (positions : reply (list api_position))
  : M (option action_dict) :=
  self <- get ;;
  if negb (truthy (initial_price self)) || negb (truthy (current_price self))
  then ret None
  else
    cp <- num (current_price self) ;;
    ip <- num (initial_price self) ;;
    pct_change <- py_div (cp - ip) ip ;;
    position <- get_position positions (ticker self) ;;
    let current_qty := qty position in
    if (gain_threshold self <=? pct_change) && (cash_reserve self =? 0)
    then
      if (0 <? current_qty)%Z then
        x <- lift (float_of_int current_qty) ;;
        k <- lift (int_of_float (x * 0.05)) ;;
        let sell_qty := Z.max 1 k in
        ret (Some {| action := sell; action_qty := sell_qty;
                     action_reason := gain_reached pct_change;
                     reserve_cash := true; use_reserve := false |})
      else ret None
    else if (pct_change <=? - loss_threshold self)
            && (0 <? cash_reserve self)
    then
      if (0 <? cash_reserve self) && (0 <? cp) then
        quotient <- py_div (cash_reserve self) cp ;;
        buy_qty <- lift (int_of_float quotient) ;;
        if (0 <? buy_qty)%Z then
          ret (Some {| action := buy; action_qty := buy_qty;
                       action_reason := loss_reached pct_change;
                       reserve_cash := false; use_reserve := true |})
        else ret None
      else ret None
    else ret None.

(** [execute_rebalance]. *)
Definition execute_rebalance (a : action_dict) (order : reply unit) (now : Z)
  : M bool :=
  try_except
    (self <- get ;;
     success <- place_order order now (ticker self) (action_qty a) (action a) ;;
     (if success then
        if reserve_cash a then
          self <- get ;;
          cp <- num (current_price self) ;;
          y <- lift (float_of_int (action_qty a)) ;;
          modify (set_cash_reserve (y * cp)) ;;
          log INFO (reserved_cash (y * cp))
        else if use_reserve a then
          modify (set_cash_reserve 0) ;;
          log INFO used_reserved_cash
        else ret tt
      else ret tt) ;;
     ret success)
    (fun e => log ERROR (execute_error e) ;; ret false).

(** *** Sessions and broker answers used in the examples *)

(** A session on ["AAPL"] with reference price [r], at price [p], holding
    [reserve] in cash. *)
Definition session_at (r p reserve : float) : Bot :=
  {| ticker := Some "AAPL"%string;
     initial_price := Some r;
     current_price := Some p;
     daily_high := Some r;
     daily_low := Some r;
     position_size := 0;
     cash_reserve := reserve;
     gain_threshold := 0.05;
     loss_threshold := 0.10;
     trades_today := [];
     is_running := true;
     logger := [] |}.

(** The broker lists one position: [n] shares of ["AAPL"]. *)
Definition holds (n : Z) : reply (list api_position) :=
  Returned
    [{| symbol := "AAPL"%string;
        holding := {| qty := n; market_value := 0; avg_entry_price := 0;
                      unrealized_pl := 0; unrealized_plpc := 0 |} |}].

End Binary64.
(** ** Arithmetic facts *)

Lemma Qlt_bool_iff (x y : Q) : Qlt_bool x y = true <-> x < y.
Proof.
  unfold Qlt_bool. rewrite negb_true_iff. split.
  - intros H. apply Qnot_le_lt. intros Hle.
    apply Qle_bool_iff in Hle. congruence.
  - intros H. destruct (Qle_bool y x) eqn:E; [|reflexivity].
    apply Qle_bool_iff in E. exfalso. apply (Qlt_not_le _ _ H E).
Qed.

Lemma Qlt_bool_false_iff (x y : Q) : Qlt_bool x y = false <-> y <= x.
Proof.
  unfold Qlt_bool. rewrite negb_false_iff. apply Qle_bool_iff.
Qed.

Lemma Qeq_bool_false_iff (x y : Q) : Qeq_bool x y = false <-> ~ x == y.
Proof.
  split.
  - apply Qeq_bool_neq.
  - intros H. destruct (Qeq_bool x y) eqn:E; [|reflexivity].
    apply Qeq_bool_iff in E. contradiction.
Qed.

Lemma truthy_Some (q : Q) : truthy (Some q) = true <-> ~ q == 0.
Proof.
  simpl. rewrite negb_true_iff. apply Qeq_bool_false_iff.
Qed.

(** On a non-negative float [int] is the floor. *)
Lemma py_int_floor (x : Q) : 0 <= x -> py_int x = Qfloor x.
Proof.
  destruct x as [n d]. unfold Qle, py_int, Qfloor. simpl. intros H.
  apply Z.quot_div_nonneg; lia.
Qed.

Lemma py_int_nonneg (x : Q) : 0 <= x -> (0 <= py_int x)%Z.
Proof.
  destruct x as [n d]. unfold Qle, py_int. simpl. intros H.
  apply Z.quot_pos; lia.
Qed.

Lemma inject_Z_pos (z : Z) : (0 < z)%Z -> 0 < inject_Z z.
Proof. intros H. unfold Qlt. simpl. lia. Qed.


(** A relative change of at least [g > -1] from a positive reference leaves
    the price positive. *)
Lemma gain_price_pos (r p g : Q) :
  0 < r -> -(1) < g -> g <= (p - r) / r -> 0 < p.
Proof.
  intros Hr Hg H.
  assert (Hr' : ~ r == 0) by (intros E; rewrite E in Hr; discriminate).
  assert (E : p == r * ((p - r) / r) + r) by (field; exact Hr').
  rewrite E.
  assert (0 < 1 + (p - r) / r) by lra.
  setoid_replace (r * ((p - r) / r) + r) with (r * (1 + (p - r) / r)) by ring.
  apply Qmult_lt_0_compat; assumption.
Qed.

(** A relative change of at most [-l < 0] from a positive reference is not a
    change of at least [g >= 0]. *)
Lemma Qle_bool_false (x y : Q) : y < x -> Qle_bool x y = false.
Proof.
  intros H. destruct (Qle_bool x y) eqn:E; [|reflexivity].
  apply Qle_bool_iff in E. exfalso. apply (Qlt_not_le _ _ H E).
Qed.


(** ** Frames: lemmas *)

Lemma set_logger_same (s : Bot) : set_logger (logger s) s = s.
Proof. destruct s; reflexivity. Qed.

Lemma logged_only_refl (s : Bot) : logged_only s s.
Proof.
  exists []. rewrite app_nil_r. symmetry. apply set_logger_same.
Qed.

Lemma logged_only_trans (s1 s2 s3 : Bot) :
  logged_only s1 s2 -> logged_only s2 s3 -> logged_only s1 s3.
Proof.
  intros [l1 H1] [l2 H2]. exists (l1 ++ l2). subst. simpl.
  rewrite app_assoc. reflexivity.
Qed.

Lemma logged_only_log (s : Bot) (lv : level) (m : message) :
  logged_only s (set_logger (logger s ++ [(lv, m)]) s).
Proof. exists [(lv, m)]. reflexivity. Qed.

Lemma get_position_total (r : reply (list api_position)) (t : option string)
  (s : Bot) :
  exists d s', get_position r t s = (Val d, s') /\ logged_only s s'.
Proof.
  destruct r as [l|]; simpl.
  - destruct (first_match l t); eexists; eexists; split;
      try reflexivity; apply logged_only_refl.
  - eexists; eexists; split; [reflexivity|]. apply logged_only_log.
Qed.


(** ** The decision: lemmas *)

Lemma calculate_rebalance_action_guard
  (positions : reply (list api_position)) (s : Bot) :
  truthy (initial_price s) = false \/ truthy (current_price s) = false ->
  calculate_rebalance_action positions s = (Val None, s).
Proof.
  intros H. unfold calculate_rebalance_action, bind, get.
  destruct H as [H|H]; rewrite H; simpl; [reflexivity|].
  rewrite orb_true_r. reflexivity.
Qed.

Lemma calculate_rebalance_action_decides
  (positions : reply (list api_position)) (s s1 : Bot) (ip cp : Q)
  (pos : position_dict) :
  initial_price s = Some ip -> ~ ip == 0 ->
  current_price s = Some cp -> ~ cp == 0 ->
  get_position positions (ticker s) s = (Val pos, s1) ->
  calculate_rebalance_action positions s =
    (Val (branches (gain_threshold s) (loss_threshold s) (cash_reserve s)
            ip cp (qty pos)), s1).
Proof.
  intros Hi Hi0 Hc Hc0 Hpos.
  apply Qeq_bool_false_iff in Hi0, Hc0.
  unfold calculate_rebalance_action, bind, get.
  rewrite Hi, Hc. simpl. rewrite Hi0, Hc0. simpl.
  unfold py_div at 1. rewrite Hi0. unfold ret at 1. rewrite Hpos.
  unfold branches.
  destruct (Qle_bool (gain_threshold s) ((cp - ip) / ip)
            && Qeq_bool (cash_reserve s) 0).
  - destruct (0 <? qty pos)%Z; reflexivity.
  - destruct (Qle_bool ((cp - ip) / ip) (- loss_threshold s)
              && Qlt_bool 0 (cash_reserve s)); [|reflexivity].
    destruct (Qlt_bool 0 (cash_reserve s) && Qlt_bool 0 cp); [|reflexivity].
    unfold py_div. rewrite Hc0. unfold ret at 1.
    destruct (0 <? py_int (cash_reserve s / cp))%Z; reflexivity.
Qed.

(** ** Composing effects *)

Section Effects.

Variable R : Bot -> Bot -> Prop.
Hypothesis R_refl : forall s, R s s.
Hypothesis R_trans : forall s1 s2 s3, R s1 s2 -> R s2 s3 -> R s1 s3.

Lemma effect_ret {A} (a : A) : effect R (ret a).
Proof. intros s. apply R_refl. Qed.

Lemma effect_raise {A} (e : exn) : effect R (@raise A e).
Proof. intros s. apply R_refl. Qed.

Lemma effect_get : effect R get.
Proof. intros s. apply R_refl. Qed.

Lemma effect_modify (f : Bot -> Bot) :
  (forall s, R s (f s)) -> effect R (modify f).
Proof. intros H s. apply H. Qed.

Lemma effect_bind {A B} (m : M A) (k : A -> M B) :
  effect R m -> (forall a, effect R (k a)) -> effect R (bind m k).
Proof.
  intros Hm Hk s. unfold bind. specialize (Hm s).
  destruct (m s) as [[a|e] s1]; simpl in *.
  - eapply R_trans; [exact Hm|]. apply Hk.
  - exact Hm.
Qed.

Lemma effect_try_except {A} (m : M A) (h : exn -> option (M A)) :
  effect R m -> (forall e k, h e = Some k -> effect R k) ->
  effect R (try_except m h).
Proof.
  intros Hm Hh s. unfold try_except. specialize (Hm s).
  destruct (m s) as [[a|e] s1]; simpl in *.
  - exact Hm.
  - destruct (h e) as [k|] eqn:E; simpl.
    + eapply R_trans; [exact Hm|]. eapply Hh. exact E.
    + exact Hm.
Qed.

Lemma effect_num (x : option Q) : effect R (num x).
Proof. destruct x; [apply effect_ret | apply effect_raise]. Qed.

Lemma effect_py_div (a b : Q) : effect R (py_div a b).
Proof.
  unfold py_div. destruct (Qeq_bool b 0); [apply effect_raise | apply effect_ret].
Qed.

Lemma effect_py_max (a b : option Q) : effect R (py_max a b).
Proof.
  unfold py_max. apply effect_bind; [apply effect_num | intros x].
  apply effect_bind; [apply effect_num | intros y]. apply effect_ret.
Qed.

Lemma effect_py_min (a b : option Q) : effect R (py_min a b).
Proof.
  unfold py_min. apply effect_bind; [apply effect_num | intros x].
  apply effect_bind; [apply effect_num | intros y]. apply effect_ret.
Qed.

End Effects.

(** An effect of one kind followed by an effect of another. *)
Lemma effect_then {A B} (R1 R2 R3 : Bot -> Bot -> Prop)
  (m : M A) (k : A -> M B) :
  (forall s1 s2 s3, R1 s1 s2 -> R2 s2 s3 -> R3 s1 s3) ->
  (forall s1 s2, R1 s1 s2 -> R3 s1 s2) ->
  effect R1 m -> (forall a, effect R2 (k a)) -> effect R3 (bind m k).
Proof.
  intros Hc Hw Hm Hk s. unfold bind. specialize (Hm s).
  destruct (m s) as [[a|e] s1]; simpl in *.
  - eapply Hc; [exact Hm|]. apply Hk.
  - apply Hw. exact Hm.
Qed.

Lemma effect_weaken {A} (R1 R2 : Bot -> Bot -> Prop) (m : M A) :
  (forall s s', R1 s s' -> R2 s s') -> effect R1 m -> effect R2 m.
Proof. intros H Hm s. apply H, Hm. Qed.

Lemma logged_only_fin_same (s s' : Bot) : logged_only s s' -> fin_same s s'.
Proof. intros [l ->]. repeat split. Qed.

Lemma logged_only_ext_same (s s' : Bot) : logged_only s s' -> ext_same s s'.
Proof. intros [l ->]. repeat split. Qed.

Lemma fin_same_refl (s : Bot) : fin_same s s.
Proof. repeat split. Qed.

Lemma fin_same_trans (s1 s2 s3 : Bot) :
  fin_same s1 s2 -> fin_same s2 s3 -> fin_same s1 s3.
Proof.
  unfold fin_same. intros (A1 & A2 & A3 & A4 & A5) (B1 & B2 & B3 & B4 & B5).
  repeat split; congruence.
Qed.

Lemma ext_same_refl (s : Bot) : ext_same s s.
Proof. repeat split. Qed.

Lemma ext_same_trans (s1 s2 s3 : Bot) :
  ext_same s1 s2 -> ext_same s2 s3 -> ext_same s1 s3.
Proof.
  unfold ext_same. intros (A1 & A2 & A3 & A4) (B1 & B2 & B3 & B4).
  repeat split; congruence.
Qed.

(** ** What each method touches *)

Lemma log_logged_only (lv : level) (m : message) :
  effect logged_only (log lv m).
Proof. intros s. apply logged_only_log. Qed.

Lemma sleep_logged_only (seconds : Z) : effect logged_only (sleep seconds).
Proof. intros s. apply logged_only_refl. Qed.

Lemma get_account_info_logged_only (r : reply account_dict) :
  effect logged_only (get_account_info r).
Proof.
  destruct r; simpl.
  - apply effect_ret. apply logged_only_refl.
  - intros s. apply logged_only_log.
Qed.

Lemma get_current_price_logged_only (r : reply Q) (t : option string) :
  effect logged_only (get_current_price r t).
Proof.
  destruct r; simpl.
  - apply effect_ret. apply logged_only_refl.
  - intros s. apply logged_only_log.
Qed.

Lemma get_position_logged_only (r : reply (list api_position))
  (t : option string) : effect logged_only (get_position r t).
Proof.
  intros s. destruct (get_position_total r t s) as (d & s' & E & H).
  rewrite E. exact H.
Qed.

Lemma is_market_open_logged_only (c : reply clock) :
  effect logged_only (is_market_open c).
Proof.
  destruct c; simpl.
  - apply effect_ret. apply logged_only_refl.
  - intros s. apply logged_only_log.
Qed.

Lemma calculate_rebalance_action_logged_only
  (r : reply (list api_position)) :
  effect logged_only (calculate_rebalance_action r).
Proof.
  intros s.
  destruct (truthy (initial_price s)) eqn:Ti;
    [|rewrite calculate_rebalance_action_guard by (left; exact Ti);
      apply logged_only_refl].
  destruct (truthy (current_price s)) eqn:Tc;
    [|rewrite calculate_rebalance_action_guard by (right; exact Tc);
      apply logged_only_refl].
  destruct (initial_price s) as [ip|] eqn:Ei; [|discriminate].
  destruct (current_price s) as [cp|] eqn:Ec; [|discriminate].
  apply truthy_Some in Ti, Tc.
  destruct (get_position_total r (ticker s) s) as (d & s' & E & H).
  rewrite (calculate_rebalance_action_decides r s s' ip cp d); assumption.
Qed.

Lemma place_order_ext_same (o : reply unit) (now : Z) (t : option string)
  (q : Z) (sd : side) : effect ext_same (place_order o now t q sd).
Proof.
  destruct o; intros s; simpl; repeat split.
Qed.

Lemma execute_rebalance_ext_same (a : action_dict) (o : reply unit)
  (now : Z) : effect ext_same (execute_rebalance a o now).
Proof.
  destruct o; intros s; unfold execute_rebalance, try_except, bind; simpl.
  - destruct (reserve_cash a).
    + simpl. destruct (current_price s); simpl; repeat split.
    + destruct (use_reserve a); simpl; repeat split.
  - repeat split.
Qed.

Lemma execute_rebalance_raised (a : action_dict) (now : Z) (s : Bot) :
  execute_rebalance a Raised now s =
    (Val false,
     set_logger (logger s ++ [(ERROR, order_error (action a) (ticker s))]) s).
Proof. reflexivity. Qed.

(** A placed order: the trade is in the ledger, and the reserve follows the
    flag of the action. *)
Lemma execute_rebalance_returned (a : action_dict) (u : unit) (now : Z)
  (s : Bot) (cp : Q) :
  current_price s = Some cp ->
  exists s',
    execute_rebalance a (Returned u) now s = (Val true, s')
    /\ trades_today s' =
         trades_today s ++
           [{| timestamp := now; trade_ticker := ticker s;
               trade_side := action a; trade_qty := action_qty a;
               trade_price := Some cp; trade_reason := action a |}]
    /\ cash_reserve s' =
         (if reserve_cash a then inject_Z (action_qty a) * cp
          else if use_reserve a then 0 else cash_reserve s)
    /\ initial_price s' = initial_price s
    /\ gain_threshold s' = gain_threshold s
    /\ loss_threshold s' = loss_threshold s.
Proof.
  intros Hc. unfold execute_rebalance, try_except, bind. simpl.
  rewrite Hc.
  destruct (reserve_cash a); simpl.
  - rewrite Hc. simpl.
    eexists. split; [reflexivity|]. simpl. repeat split.
  - destruct (use_reserve a); simpl;
      (eexists; split; [reflexivity|]; simpl; repeat split).
Qed.

(** [calculate_rebalance_action] returns: it raises nothing. *)
Lemma calculate_rebalance_action_returns
  (positions : reply (list api_position)) (s : Bot) :
  exists act s',
    calculate_rebalance_action positions s = (Val act, s').
Proof.
  destruct (truthy (initial_price s)) eqn:Ti;
    [|eexists; eexists; apply calculate_rebalance_action_guard; left;
      exact Ti].
  destruct (truthy (current_price s)) eqn:Tc;
    [|eexists; eexists; apply calculate_rebalance_action_guard; right;
      exact Tc].
  destruct (initial_price s) as [ip|] eqn:Ei; [|discriminate].
  destruct (current_price s) as [cp|] eqn:Ec; [|discriminate].
  apply truthy_Some in Ti, Tc.
  destruct (get_position_total positions (ticker s) s) as (d & s' & E & H).
  eexists; eexists.
  apply (calculate_rebalance_action_decides positions s s' ip cp d);
    assumption.
Qed.

(** A falsy price: the pass does nothing but sleep. *)
Lemma loop_body_zero_price (t : replies) (s : Bot) (p : Q) :
  get_latest_trade t = Returned p -> p == 0 ->
  loop_body t s = (Val tt, s).
Proof.
  intros Ht Hp. unfold loop_body, bind, get. rewrite Ht. simpl.
  apply Qeq_bool_iff in Hp. rewrite Hp. reflexivity.
Qed.

(** A failed price lookup: the pass logs the failure and sleeps. *)
Lemma loop_body_no_price (t : replies) (s : Bot) :
  get_latest_trade t = Raised ->
  loop_body t s =
    (Val tt, set_logger (logger s ++ [(ERROR, price_error (ticker s))]) s).
Proof.
  intros Ht. unfold loop_body, bind, get. rewrite Ht. reflexivity.
Qed.

Lemma execute_rebalance_raised_logged_only (a : action_dict) (now : Z) :
  effect logged_only (execute_rebalance a Raised now).
Proof.
  intros s. rewrite execute_rebalance_raised. apply logged_only_log.
Qed.

(** Steps through a method, one [bind] at a time, for an effect [R] that is
    a preorder containing [logged_only]; [refl], [trans] and [incl] are the
    proofs of these three facts. *)
Ltac effect_steps refl trans incl :=
  repeat first
    [ apply (effect_weaken logged_only _ _ incl);
      first [ apply log_logged_only
            | apply sleep_logged_only
            | apply get_account_info_logged_only
            | apply get_position_logged_only
            | apply get_current_price_logged_only
            | apply is_market_open_logged_only
            | apply calculate_rebalance_action_logged_only
            | apply execute_rebalance_raised_logged_only ]
    | apply effect_get; exact refl
    | apply effect_ret; exact refl
    | apply effect_raise; exact refl
    | apply effect_num; exact refl
    | apply effect_py_div; exact refl
    | apply effect_py_max; [exact refl|exact trans]
    | apply effect_py_min; [exact refl|exact trans]
    | match goal with
      | |- effect _ (bind _ _) => apply effect_bind; [exact trans| |intros ?]
      | |- effect _ (if ?b then _ else _) => destruct b
      | |- effect _ (match ?x with _ => _ end) => destruct x
      end ].

(** A pass of the loop whose order is refused leaves the money side of the
    session as it was. *)
Lemma loop_body_refused_fin_same (t : replies) :
  submit_order t = Raised -> effect fin_same (loop_body t).
Proof.
  intros Ht. unfold loop_body. rewrite Ht.
  effect_steps fin_same_refl fin_same_trans logged_only_fin_same;
    apply effect_modify; intros s; repeat split.
Qed.

(** An accepted order is recorded, whatever happens afterwards. *)
Lemma execute_rebalance_records (a : action_dict) (u : unit) (now : Z)
  (s : Bot) :
  trades_today (snd (execute_rebalance a (Returned u) now s)) =
    trades_today s ++
      [{| timestamp := now; trade_ticker := ticker s;
          trade_side := action a; trade_qty := action_qty a;
          trade_price := current_price s; trade_reason := action a |}].
Proof.
  unfold execute_rebalance, try_except, bind. simpl.
  destruct (reserve_cash a); simpl.
  - destruct (current_price s); reflexivity.
  - destruct (use_reserve a); reflexivity.
Qed.

Lemma app_one_neq {A} (l : list A) (x : A) : l ++ [x] <> l.
Proof.
  intros H. apply (f_equal (@List.length A)) in H.
  rewrite List.length_app in H. simpl in H. lia.
Qed.

(** The market check fails safe, and a failed check ends the loop. *)
Lemma is_market_open_fail_safe (s : Bot) :
  is_market_open Raised s =
    (Val false, set_logger (logger s ++ [(ERROR, market_status_error)]) s).
Proof. reflexivity. Qed.

Lemma while_loop_stops_when_closed (t : replies) (rest : list replies)
  (s : Bot) :
  is_running s = true -> get_clock t = Raised ->
  while_loop (t :: rest) s =
    (Val tt, set_logger (logger s ++ [(ERROR, market_status_error)]) s).
Proof.
  intros Hr Hc. simpl. unfold bind, get. rewrite Hr, Hc. reflexivity.
Qed.

Lemma while_loop_passes_when_open (t : replies) (rest : list replies)
  (s : Bot) (c : clock) :
  is_running s = true -> get_clock t = Returned c ->
  while_loop (t :: rest) s = (loop_body t ;; while_loop rest) s.
Proof.
  intros Hr Hc. simpl. unfold bind at 1, get. rewrite Hr, Hc. reflexivity.
Qed.

(** [execute_rebalance] returns: what its body raises is caught. *)
Lemma execute_rebalance_returns (a : action_dict) (o : reply unit) (now : Z)
  (s : Bot) :
  exists b s', execute_rebalance a o now s = (Val b, s').
Proof.
  destruct o as [u|]; [|eexists; eexists; reflexivity].
  unfold execute_rebalance, try_except, bind. simpl.
  destruct (reserve_cash a); simpl.
  - destruct (current_price s); simpl; eexists; eexists; reflexivity.
  - destruct (use_reserve a); simpl; eexists; eexists; reflexivity.
Qed.
(** ** One pass of the loop *)

(** What a returned action tells about the session it was computed on. *)
Lemma calculate_rebalance_action_some
  (positions : reply (list api_position)) (s s1 : Bot) (a : action_dict) :
  calculate_rebalance_action positions s = (Val (Some a), s1) ->
  exists ip cp pos,
    initial_price s = Some ip /\ ~ ip == 0
    /\ current_price s = Some cp /\ ~ cp == 0
    /\ get_position positions (ticker s) s = (Val pos, s1)
    /\ ((gain_threshold s <= (cp - ip) / ip
         /\ cash_reserve s == 0
         /\ (0 < qty pos)%Z
         /\ a = {| action := sell;
                   action_qty :=
                     Z.max 1 (py_int (inject_Z (qty pos) * 0.05));
                   action_reason := gain_reached ((cp - ip) / ip);
                   reserve_cash := true; use_reserve := false |})
        \/ ((cp - ip) / ip <= - loss_threshold s
            /\ 0 < cash_reserve s
            /\ 0 < cp
            /\ (0 < py_int (cash_reserve s / cp))%Z
            /\ a = {| action := buy;
                      action_qty := py_int (cash_reserve s / cp);
                      action_reason := loss_reached ((cp - ip) / ip);
                      reserve_cash := false; use_reserve := true |})).
Proof.
  intros H.
  destruct (truthy (initial_price s)) eqn:Ti;
    [|rewrite calculate_rebalance_action_guard in H by (left; exact Ti);
      discriminate].
  destruct (truthy (current_price s)) eqn:Tc;
    [|rewrite calculate_rebalance_action_guard in H by (right; exact Tc);
      discriminate].
  destruct (initial_price s) as [ip|] eqn:Ei; [|discriminate].
  destruct (current_price s) as [cp|] eqn:Ec; [|discriminate].
  apply truthy_Some in Ti, Tc.
  destruct (get_position_total positions (ticker s) s)
    as (pos & s' & E & Hlog).
  rewrite (calculate_rebalance_action_decides positions s s' ip cp pos)
    in H by assumption.
  exists ip, cp, pos.
  assert (Hs : s' = s1) by congruence. subst s'.
  repeat (split; [first [reflexivity|assumption]|]).
  unfold branches in H.
  destruct (Qle_bool (gain_threshold s) ((cp - ip) / ip)) eqn:Eg;
    destruct (Qeq_bool (cash_reserve s) 0) eqn:Er; simpl in H.
  1: { destruct (0 <? qty pos)%Z eqn:Eq; [|discriminate].
       left. apply Qle_bool_iff in Eg. apply Qeq_bool_iff in Er.
       apply Z.ltb_lt in Eq. repeat split; try assumption. congruence. }
  all: destruct (Qle_bool ((cp - ip) / ip) (- loss_threshold s)) eqn:El;
    destruct (Qlt_bool 0 (cash_reserve s)) eqn:Ep; simpl in H;
    try discriminate;
    destruct (Qlt_bool 0 cp) eqn:Ecp; try discriminate;
    destruct (0 <? py_int (cash_reserve s / cp))%Z eqn:Eq;
    try discriminate;
    right; apply Qle_bool_iff in El; apply Qlt_bool_iff in Ep, Ecp;
    apply Z.ltb_lt in Eq; repeat split; try assumption; congruence.
Qed.

Lemma log_extends_refl (s : Bot) : log_extends s s.
Proof. exists []. symmetry. apply app_nil_r. Qed.

Lemma log_extends_trans (s1 s2 s3 : Bot) :
  log_extends s1 s2 -> log_extends s2 s3 -> log_extends s1 s3.
Proof.
  intros [l1 H1] [l2 H2]. exists (l1 ++ l2).
  rewrite H2, H1, app_assoc. reflexivity.
Qed.

Lemma logged_only_log_extends (s s' : Bot) :
  logged_only s s' -> log_extends s s'.
Proof. intros [l ->]. exists l. reflexivity. Qed.


Lemma execute_rebalance_log_extends (a : action_dict) (o : reply unit)
  (now : Z) : effect log_extends (execute_rebalance a o now).
Proof.
  destruct o; intros s; unfold execute_rebalance, try_except, bind; simpl.
  - destruct (reserve_cash a).
    + simpl. destruct (current_price s); simpl; unfold log_extends; simpl;
        rewrite <- ?app_assoc; eexists; reflexivity.
    + destruct (use_reserve a); simpl; unfold log_extends; simpl;
        rewrite <- ?app_assoc; eexists; reflexivity.
  - eexists; reflexivity.
Qed.

(** The end of a pass, case by case: nothing decided, an order refused, or
    an order placed. *)
Lemma rebalance_run (t : replies) (s : Bot) :
  exists act s1,
    calculate_rebalance_action (list_positions_decide t) s = (Val act, s1)
    /\ logged_only s s1
    /\ match act with
       | None => rebalance t s = (Val tt, s1)
       | Some a =>
           exists s',
             rebalance t s = (Val tt, s')
             /\ log_extends s1 s'
             /\ match submit_order t with
                | Raised => logged_only s s'
                | Returned _ =>
                    forall cp, current_price s = Some cp ->
                      trades_today s' =
                        trades_today s ++
                          [{| timestamp := now_trade t;
                              trade_ticker := ticker s;
                              trade_side := action a;
                              trade_qty := action_qty a;
                              trade_price := Some cp;
                              trade_reason := action a |}]
                      /\ cash_reserve s' =
                           (if reserve_cash a
                            then inject_Z (action_qty a) * cp
                            else if use_reserve a then 0
                                 else cash_reserve s)
                end
       end.
Proof.
  destruct (calculate_rebalance_action_returns (list_positions_decide t) s)
    as (act & s1 & E).
  assert (Hlog : logged_only s s1).
  { pose proof (calculate_rebalance_action_logged_only
                  (list_positions_decide t) s) as H.
    rewrite E in H. exact H. }
  exists act, s1. split; [exact E|]. split; [exact Hlog|].
  destruct act as [a|];
    [|unfold rebalance, bind; rewrite E; reflexivity].
  assert (Hreb : rebalance t s =
            (success <- execute_rebalance a (submit_order t) (now_trade t) ;;
             if success then log INFO rebalancing_ok
             else log ERROR rebalancing_failed)
              (set_logger
                 (logger s1 ++
                    [(INFO, rebalancing_action (action_reason a))]) s1)).
  { unfold rebalance. unfold bind at 1. rewrite E. reflexivity. }
  rewrite Hreb. clear Hreb.
  set (s2 := set_logger _ s1).
  assert (Hlog2 : logged_only s s2).
  { eapply logged_only_trans; [exact Hlog|]. apply logged_only_log. }
  destruct (submit_order t) as [u|] eqn:Eo.
  - destruct Hlog2 as [l2 Hl2].
    destruct (current_price s) as [cp|] eqn:Ec.
    + assert (Hc2 : current_price s2 = Some cp)
        by (rewrite Hl2; exact Ec).
      destruct (execute_rebalance_returned a u (now_trade t) s2 cp Hc2)
        as (s3 & Ex & Htr & Hcash & _).
      assert (Hx : log_extends s1 s3).
      { apply log_extends_trans with s2.
        - apply logged_only_log_extends, logged_only_log.
        - pose proof (execute_rebalance_log_extends a (Returned u)
                        (now_trade t) s2) as Hx.
          rewrite Ex in Hx. exact Hx. }
      unfold bind. rewrite Ex. simpl.
      eexists. split; [reflexivity|].
      split.
      { eapply log_extends_trans; [exact Hx|].
        apply logged_only_log_extends, logged_only_log. }
      intros cp' Hcp'. assert (cp' = cp) by congruence. subst cp'.
      simpl. rewrite Htr, Hcash, Hl2. simpl. split; reflexivity.
    + destruct (execute_rebalance_returns a (Returned u) (now_trade t) s2)
        as (b & s3 & Ex).
      assert (Hx : log_extends s1 s3).
      { apply log_extends_trans with s2.
        - apply logged_only_log_extends, logged_only_log.
        - pose proof (execute_rebalance_log_extends a (Returned u)
                        (now_trade t) s2) as Hx.
          rewrite Ex in Hx. exact Hx. }
      unfold bind. rewrite Ex.
      destruct b; simpl; (eexists; split; [reflexivity|]);
        (split;
         [eapply log_extends_trans; [exact Hx|];
          apply logged_only_log_extends, logged_only_log|]);
        intros cp' Hcp'; discriminate.
  - unfold bind. rewrite execute_rebalance_raised. simpl.
    eexists. split; [reflexivity|]. split.
    + apply logged_only_log_extends.
      eapply logged_only_trans; [apply logged_only_log|].
      eapply logged_only_trans; apply logged_only_log.
    + eapply logged_only_trans; [exact Hlog2|].
      eapply logged_only_trans; apply logged_only_log.
Qed.

(** A pass that is quoted a price, in a session that has been initialised:
    the price is taken in, the status is logged, and the rest is
    [rebalance]. *)
Lemma loop_body_priced (t : replies) (s : Bot) (p r h l : Q) :
  get_latest_trade t = Returned p -> ~ p == 0 ->
  initial_price s = Some r -> ~ r == 0 ->
  daily_high s = Some h -> daily_low s = Some l ->
  exists s1,
    logged_only (observe p h l s) s1
    /\ loop_body t s = (rebalance t ;; sleep 30) s1.
Proof.
  intros Ht Hp Hi Hr Hh Hl.
  apply Qeq_bool_false_iff in Hp, Hr.
  destruct s as [tk ip cp dh dl ps cr g lo tr run lg]. simpl in *. subst.
  unfold loop_body, observe, bind, get, modify, py_max, py_min, num, py_div,
    log, ret. rewrite Ht. simpl. rewrite Hp. simpl. rewrite Hr.
  unfold bind, ret.
  destruct (list_positions_status t) as [ps'|]; simpl;
    [destruct (first_match ps' tk); simpl|];
    (eexists; split;
     [|unfold rebalance, sleep, bind, log, modify, ret; reflexivity]);
    unfold logged_only;
    cbv [set_logger set_daily_low set_daily_high set_current_price logger
         ticker initial_price current_price daily_high daily_low
         position_size cash_reserve gain_threshold loss_threshold
         trades_today is_running];
    rewrite <- ?app_assoc; eexists; reflexivity.
Qed.

(** The same pass when the reference price is zero: the price is taken in,
    and the percentage cannot be computed. *)
Lemma loop_body_zero_reference (t : replies) (s : Bot) (p r h l : Q) :
  get_latest_trade t = Returned p -> ~ p == 0 ->
  initial_price s = Some r -> r == 0 ->
  daily_high s = Some h -> daily_low s = Some l ->
  loop_body t s = (Exc ZeroDivisionError, observe p h l s).
Proof.
  intros Ht Hp Hi Hr Hh Hl.
  apply Qeq_bool_false_iff in Hp. apply Qeq_bool_iff in Hr.
  destruct s as [tk ip cp dh dl ps cr g lo tr run lg]. simpl in *. subst.
  unfold loop_body, observe, bind, get, modify, py_max, py_min, num, py_div,
    log, ret. rewrite Ht. simpl. rewrite Hp. simpl. rewrite Hr.
  reflexivity.
Qed.

Lemma loop_body_absent (t : replies) (s : Bot) :
  price_absent t ->
  loop_body t s = (Val tt, s)
  \/ loop_body t s =
       (Val tt,
        set_logger (logger s ++ [(ERROR, price_error (ticker s))]) s).
Proof.
  intros [H|(p & H & Hp)].
  - right. apply loop_body_no_price. exact H.
  - left. apply (loop_body_zero_price t s p); assumption.
Qed.

Lemma loop_body_absent_logged_only (t : replies) :
  price_absent t -> effect logged_only (loop_body t).
Proof.
  intros H s. destruct (loop_body_absent t s H) as [E|E]; rewrite E.
  - apply logged_only_refl.
  - apply logged_only_log.
Qed.

Lemma while_loop_absent_logged_only (ticks : list replies) :
  Forall price_absent ticks -> effect logged_only (while_loop ticks).
Proof.
  induction 1 as [|t rest Ht Hrest IH]; simpl.
  - apply effect_raise. apply logged_only_refl.
  - apply effect_bind; [exact logged_only_trans| |intros self].
    { apply effect_get. exact logged_only_refl. }
    apply effect_bind; [exact logged_only_trans| |intros continue].
    { destruct (is_running self).
      - apply is_market_open_logged_only.
      - apply effect_ret. exact logged_only_refl. }
    destruct continue.
    + apply effect_bind; [exact logged_only_trans| |intros _].
      * apply loop_body_absent_logged_only. exact Ht.
      * exact IH.
    + apply effect_ret. exact logged_only_refl.
Qed.
(** ** The reserve *)

Lemma config_same_refl (s : Bot) : config_same s s.
Proof. repeat split. Qed.

Lemma config_same_trans (s1 s2 s3 : Bot) :
  config_same s1 s2 -> config_same s2 s3 -> config_same s1 s3.
Proof.
  unfold config_same. intros (A1 & A2 & A3 & A4) (B1 & B2 & B3 & B4).
  repeat split; congruence.
Qed.

Lemma logged_only_config_same (s s' : Bot) :
  logged_only s s' -> config_same s s'.
Proof. intros [l ->]. repeat split. Qed.

Lemma execute_rebalance_config_same (a : action_dict) (o : reply unit)
  (now : Z) : effect config_same (execute_rebalance a o now).
Proof.
  destruct o; intros s; unfold execute_rebalance, try_except, bind; simpl.
  - destruct (reserve_cash a).
    + simpl. destruct (current_price s); simpl; repeat split.
    + destruct (use_reserve a); simpl; repeat split.
  - repeat split.
Qed.

Lemma loop_body_config_same (t : replies) : effect config_same (loop_body t).
Proof.
  unfold loop_body.
  effect_steps config_same_refl config_same_trans logged_only_config_same;
    first [ apply execute_rebalance_config_same
          | apply effect_modify; intros s; repeat split ].
Qed.

Lemma reachable_config_same (s0 s : Bot) :
  reachable s0 s -> config_same s0 s.
Proof.
  induction 1 as [|c s H IH|t s H IH].
  - apply config_same_refl.
  - eapply config_same_trans; [exact IH|].
    apply logged_only_config_same, is_market_open_logged_only.
  - eapply config_same_trans; [exact IH|]. apply loop_body_config_same.
Qed.

Lemma reachable_trans (s0 s1 s2 : Bot) :
  reachable s0 s1 -> reachable s1 s2 -> reachable s0 s2.
Proof.
  intros H1 H2. induction H2.
  - exact H1.
  - apply reach_check. assumption.
  - apply reach_body. assumption.
Qed.

Lemma while_loop_reachable (ticks : list replies) (s0 s : Bot) :
  reachable s0 s -> reachable s0 (snd (while_loop ticks s)).
Proof.
  revert s. induction ticks as [|t rest IH]; intros s H; simpl.
  - exact H.
  - unfold bind at 1, get. destruct (is_running s).
    + unfold bind at 1.
      pose proof (reach_check s0 (get_clock t) s H) as Hc.
      destruct (is_market_open (get_clock t) s) as [[[|]|e] s1];
        simpl in *; try exact Hc.
      unfold bind.
      pose proof (reach_body s0 t s1 Hc) as Hb.
      destruct (loop_body t s1) as [[u|e] s2]; simpl in *.
      * apply IH. exact Hb.
      * exact Hb.
    + exact H.
Qed.

Lemma fin_same_updates (s s' : Bot) : fin_same s s' -> updates s s'.
Proof.
  intros (H1 & H2 & _) _ _. apply no_update; assumption.
Qed.

Lemma fin_same_then_updates (s1 s2 s3 : Bot) :
  fin_same s1 s2 -> updates s2 s3 -> updates s1 s3.
Proof.
  intros (H1 & H2 & H3 & H4 & _) H (r & Hr & Hpos) Hg.
  assert (Hu : reserve_update s2 s3).
  { apply H; [exists r; split; [congruence|exact Hpos] | congruence]. }
  destruct Hu as [Ha Hb|tr Ha Hb Hc Hd|tr Ha Hb Hc Hd].
  - apply no_update; congruence.
  - apply (sets_reserve s1 s3 tr); try assumption; congruence.
  - apply (clears_reserve s1 s3 tr); try assumption; congruence.
Qed.

Lemma updates_then_fin_same (s1 s2 s3 : Bot) :
  updates s1 s2 -> fin_same s2 s3 -> updates s1 s3.
Proof.
  intros H (H1 & H2 & _) Hr Hg.
  destruct (H Hr Hg) as [Ha Hb|tr Ha Hb Hc Hd|tr Ha Hb Hc Hd].
  - apply no_update; congruence.
  - apply (sets_reserve s1 s3 tr); try assumption; congruence.
  - apply (clears_reserve s1 s3 tr); try assumption; congruence.
Qed.

(** The end of a pass moves the reserve in one of the three ways. *)
Lemma rebalance_updates (t : replies) : effect updates (rebalance t).
Proof.
  intros s (r & Hr & Hpos) Hg.
  destruct (rebalance_run t s) as (act & s1 & E & Hlog & Hcase).
  destruct act as [a|].
  - destruct Hcase as (s' & Ereb & _ & Hcase). rewrite Ereb. simpl.
    destruct (submit_order t) as [u|].
    + destruct (calculate_rebalance_action_some _ _ _ _ E)
        as (ip & cp & pos & Hi & Hi0 & Hc & Hc0 & Hpos' & Hbr).
      destruct (Hcase cp Hc) as (Htr & Hcash).
      assert (ip = r) by congruence. subst ip.
      destruct Hbr as [(Hgain & Hres & Hq & ->)|(Hloss & Hres & Hcp & Hq & ->)];
        simpl in *.
      * eapply sets_reserve; [exact Htr|reflexivity|exact Hres|].
        rewrite Hcash.
        apply Qmult_lt_0_compat.
        -- apply inject_Z_pos. lia.
        -- apply (gain_price_pos r cp 0.05);
             [exact Hpos|reflexivity|]. rewrite <- Hg. exact Hgain.
      * eapply clears_reserve; [exact Htr|reflexivity|exact Hres|exact Hcash].
    + apply fin_same_updates; [|exists r; split; assumption|exact Hg].
      apply logged_only_fin_same. exact Hcase.
  - rewrite Hcase. simpl.
    apply fin_same_updates; [|exists r; split; assumption|exact Hg].
    apply logged_only_fin_same. exact Hlog.
Qed.

Lemma loop_body_updates (t : replies) : effect updates (loop_body t).
Proof.
  unfold loop_body.
  apply (effect_then fin_same updates updates);
    [exact fin_same_then_updates|exact fin_same_updates| |intros self].
  { apply effect_get. exact fin_same_refl. }
  apply (effect_then fin_same updates updates);
    [exact fin_same_then_updates|exact fin_same_updates| |intros price].
  { apply (effect_weaken logged_only _ _ logged_only_fin_same).
    apply get_current_price_logged_only. }
  apply (effect_then updates fin_same updates);
    [exact updates_then_fin_same|auto| |intros _].
  2: { apply effect_ret. exact fin_same_refl. }
  destruct (truthy price).
  2: { apply effect_ret. intros s. apply fin_same_updates, fin_same_refl. }
  repeat match goal with
    | |- effect updates (bind (calculate_rebalance_action _) _) => fail 1
    | |- effect updates (bind _ _) =>
        apply (effect_then fin_same updates updates);
        [exact fin_same_then_updates|exact fin_same_updates| |intros ?]
    end.
  all: try exact (rebalance_updates t).
  all: effect_steps fin_same_refl fin_same_trans logged_only_fin_same;
    apply effect_modify; intros s; repeat split.
Qed.

Lemma reserve_update_nonneg (s s' : Bot) :
  reserve_update s s' -> 0 <= cash_reserve s -> 0 <= cash_reserve s'.
Proof.
  intros [Ha Hb|tr Ha Hb Hc Hd|tr Ha Hb Hc Hd] H.
  - rewrite Ha. exact H.
  - apply Qlt_le_weak. exact Hd.
  - rewrite Hd. discriminate.
Qed.

Lemma reachable_reserve_nonneg (s0 s : Bot) (r : Q) :
  initial_price s0 = Some r -> 0 < r -> gain_threshold s0 = 0.05 ->
  reachable s0 s -> 0 <= cash_reserve s0 -> 0 <= cash_reserve s.
Proof.
  intros Hi Hr Hg Hreach H0.
  induction Hreach as [|c s H IH|t s H IH].
  - exact H0.
  - destruct (is_market_open_logged_only c s) as [l ->]. exact IH.
  - destruct (reachable_config_same s0 s H) as (Ci & Cg & _).
    apply (reserve_update_nonneg s); [|exact IH].
    apply loop_body_updates; [exists r; split; congruence | congruence].
Qed.
(** ** The daily extremes *)

Lemma widened_refl (s : Bot) : widened s s.
Proof.
  intros h l Hh Hl. exists h, l. repeat split; try assumption;
    apply Qle_refl.
Qed.

Lemma widened_trans (s1 s2 s3 : Bot) :
  widened s1 s2 -> widened s2 s3 -> widened s1 s3.
Proof.
  intros H12 H23 h l Hh Hl.
  destruct (H12 h l Hh Hl) as (h2 & l2 & Hh2 & Hl2 & A & B).
  destruct (H23 h2 l2 Hh2 Hl2) as (h3 & l3 & Hh3 & Hl3 & C & D).
  exists h3, l3. repeat split; try assumption.
  - apply Qle_trans with h2; assumption.
  - apply Qle_trans with l2; assumption.
Qed.

Lemma ext_same_widened (s s' : Bot) : ext_same s s' -> widened s s'.
Proof.
  intros (_ & _ & Hh & Hl) h l Hh' Hl'. exists h, l.
  repeat split; try congruence; apply Qle_refl.
Qed.

Lemma ext_same_extremes_hold (r : Q) (s s' : Bot) :
  ext_same s s' -> extremes_hold r s -> extremes_hold r s'.
Proof.
  intros (Hi & Hc & Hh & Hl) (Hi' & c & h & l & A & B & C & D).
  split; [congruence|]. exists c, h, l.
  repeat split; try congruence; apply D.
Qed.

Lemma rebalance_ext_same (t : replies) :
  effect ext_same (rebalance t ;; sleep 30).
Proof.
  unfold rebalance.
  effect_steps ext_same_refl ext_same_trans logged_only_ext_same;
    apply execute_rebalance_ext_same.
Qed.

(** Taking a price in keeps the extremes around it and only widens them. *)
Lemma observe_extremes (r p h l c : Q) (s : Bot) :
  initial_price s = Some r -> current_price s = Some c ->
  daily_high s = Some h -> daily_low s = Some l ->
  l <= r -> r <= h ->
  extremes_hold r (observe p h l s) /\ widened s (observe p h l s).
Proof.
  intros Hi Hc Hh Hl Hlr Hrh.
  assert (Hhigh : h <= (if Qlt_bool h p then p else h)
                  /\ p <= (if Qlt_bool h p then p else h)).
  { destruct (Qlt_bool h p) eqn:E.
    - apply Qlt_bool_iff in E. split; [apply Qlt_le_weak; exact E|].
      apply Qle_refl.
    - apply Qlt_bool_false_iff in E. split; [apply Qle_refl|exact E]. }
  assert (Hlow : (if Qlt_bool p l then p else l) <= l
                 /\ (if Qlt_bool p l then p else l) <= p).
  { destruct (Qlt_bool p l) eqn:E.
    - apply Qlt_bool_iff in E. split; [apply Qlt_le_weak; exact E|].
      apply Qle_refl.
    - apply Qlt_bool_false_iff in E. split; [apply Qle_refl|exact E]. }
  destruct Hhigh as [H1 H2]. destruct Hlow as [H3 H4].
  split.
  - split; [exact Hi|].
    exists p, (if Qlt_bool h p then p else h),
      (if Qlt_bool p l then p else l).
    repeat split; try assumption.
    + apply Qle_trans with l; assumption.
    + apply Qle_trans with h; assumption.
  - intros h0 l0 Hh0 Hl0.
    assert (h0 = h) by congruence. assert (l0 = l) by congruence. subst.
    exists (if Qlt_bool h p then p else h),
      (if Qlt_bool p l then p else l).
    repeat split; assumption.
Qed.

Lemma loop_body_extremes (r : Q) (t : replies) (s : Bot) :
  extremes_hold r s ->
  extremes_hold r (snd (loop_body t s)) /\ widened s (snd (loop_body t s)).
Proof.
  intros Hext.
  assert (Hsame : forall s', ext_same s s' ->
            extremes_hold r s' /\ widened s s').
  { intros s' H. split.
    - apply (ext_same_extremes_hold r s); assumption.
    - apply ext_same_widened. exact H. }
  destruct (get_latest_trade t) as [p|] eqn:Ht.
  - destruct (Qeq_dec p 0) as [Hp|Hp].
    + rewrite (loop_body_zero_price t s p Ht Hp). simpl.
      apply Hsame. apply ext_same_refl.
    + destruct Hext as (Hi & c & h & l & Hc & Hh & Hl & A & B & C & D).
      destruct (Qeq_dec r 0) as [Hr0|Hr0].
      { rewrite (loop_body_zero_reference t s p r h l Ht Hp Hi Hr0 Hh Hl).
        simpl. apply (observe_extremes r p h l c s); assumption. }
      destruct (loop_body_priced t s p r h l Ht Hp Hi Hr0 Hh Hl)
        as (s1 & Hlog & Eq).
      rewrite Eq.
      assert (Hx : ext_same (observe p h l s)
                     (snd ((rebalance t ;; sleep 30) s1))).
      { apply ext_same_trans with s1.
        - apply logged_only_ext_same. exact Hlog.
        - apply rebalance_ext_same. }
      destruct (observe_extremes r p h l c s Hi Hc Hh Hl A B) as [E1 E2].
      split.
      * apply (ext_same_extremes_hold r (observe p h l s)); assumption.
      * apply widened_trans with (observe p h l s); [exact E2|].
        apply ext_same_widened. exact Hx.
  - rewrite (loop_body_no_price t s Ht). simpl.
    apply Hsame. apply logged_only_ext_same, logged_only_log.
Qed.

Lemma reachable_extremes (r : Q) (s0 s : Bot) :
  extremes_hold r s0 -> reachable s0 s ->
  extremes_hold r s /\ widened s0 s.
Proof.
  intros H0 Hreach.
  induction Hreach as [|c s H [IH1 IH2]|t s H [IH1 IH2]].
  - split; [exact H0|apply widened_refl].
  - pose proof (logged_only_ext_same _ _ (is_market_open_logged_only c s))
      as Hx.
    split.
    + apply (ext_same_extremes_hold r s); assumption.
    + apply widened_trans with s; [exact IH2|].
      apply ext_same_widened. exact Hx.
  - destruct (loop_body_extremes r t s IH1) as [E1 E2].
    split; [exact E1|]. apply widened_trans with s; assumption.
Qed.
(** ** The whole run *)

Lemma print_trades_unchanged (trades : list trade) (s : Bot) :
  snd (print_trades trades s) = s.
Proof.
  induction trades as [|tr rest IH]; [reflexivity|].
  simpl. unfold bind. destruct (trade_price tr); simpl; [exact IH|reflexivity].
Qed.

Lemma print_trades_logged_only (trades : list trade) :
  effect logged_only (print_trades trades).
Proof.
  intros s. rewrite print_trades_unchanged. apply logged_only_refl.
Qed.

Lemma print_daily_summary_logged_only
  (fin : reply (list api_position)) (acc : reply account_dict) :
  effect logged_only (print_daily_summary fin acc).
Proof.
  unfold print_daily_summary.
  repeat first
    [ apply print_trades_logged_only
    | progress effect_steps logged_only_refl logged_only_trans
        (fun s s' (H : logged_only s s') => H) ].
Qed.

Lemma stop_monitoring_frames (fin : reply (list api_position))
  (acc : reply account_dict) (s : Bot) :
  ext_same s (snd (stop_monitoring fin acc s))
  /\ fin_same s (snd (stop_monitoring fin acc s)).
Proof.
  unfold stop_monitoring, bind, modify, log, get. simpl.
  destruct (ticker s) as [[|c name]|]; simpl.
  - split; repeat split.
  - destruct (print_daily_summary_logged_only fin acc
                (set_logger (logger s ++ [(INFO, stopped)])
                   (set_is_running false s))) as [l ->].
    split; repeat split.
  - split; repeat split.
Qed.

(** With a first quote that is not zero, [start_monitoring] sets the
    reference price, the current price and both extremes to it, runs the
    loop from there and stops. *)
Lemma start_monitoring_session (name : string) (p : Q)
  (fp : reply (list api_position)) (ticks : list replies)
  (fin : reply (list api_position)) (acc : reply account_dict) :
  ~ p == 0 ->
  exists s0 s1,
    initial_price s0 = Some p /\ current_price s0 = Some p
    /\ daily_high s0 = Some p /\ daily_low s0 = Some p
    /\ cash_reserve s0 = 0 /\ trades_today s0 = []
    /\ gain_threshold s0 = 0.05 /\ loss_threshold s0 = 0.10
    /\ reachable s0 s1
    /\ ext_same s1
         (snd (start_monitoring name (Returned p) fp ticks fin acc init))
    /\ fin_same s1
         (snd (start_monitoring name (Returned p) fp ticks fin acc init)).
Proof.
  intros Hp. apply Qeq_bool_false_iff in Hp.
  destruct (get_position_total fp (Some (upper name))
    (set_logger
       ([(INFO, starting (Some (upper name)))] ++
        [(INFO, initial_price_is (Some (upper name)) (Some p))])
       (set_current_price (Some p)
          (set_daily_low (Some p)
             (set_daily_high (Some p)
                (set_initial_price (Some p)
                   (set_logger [(INFO, starting (Some (upper name)))]
                      (set_ticker (Some (upper name)) init))))))))
    as (d & sp & Ep & [lp Hlp]).
  set (s0 := set_is_running true
               (set_logger (logger sp ++ [(INFO, initial_position_is d)])
                  sp)).
  exists s0, (snd (while_loop ticks s0)).
  assert (Hrun : start_monitoring name (Returned p) fp ticks fin acc init =
    (try_except (while_loop ticks)
       (fun e =>
          match e with
          | KeyboardInterrupt => Some (log INFO stopped_by_user)
          | _ => Some (log ERROR (loop_error e))
          end) ;;
     stop_monitoring fin acc) s0).
  { unfold start_monitoring, bind at 1, modify at 1.
    unfold bind at 1, get at 1. unfold bind at 1, log at 1, modify at 1.
    unfold bind at 1. simpl get_current_price. unfold ret at 1.
    unfold bind at 1, modify at 1. unfold bind at 1, get at 1.
    simpl. rewrite Hp. simpl.
    unfold bind at 1, modify at 1. unfold bind at 1, modify at 1.
    unfold bind at 1, modify at 1. unfold bind at 1, log at 1, modify at 1.
    unfold bind at 1. simpl. simpl in Ep. rewrite Ep.
    unfold bind at 1, log at 1, modify at 1.
    unfold bind at 1, modify at 1. reflexivity. }
  assert (Hf : initial_price s0 = Some p /\ current_price s0 = Some p
               /\ daily_high s0 = Some p /\ daily_low s0 = Some p
               /\ cash_reserve s0 = 0 /\ trades_today s0 = []
               /\ gain_threshold s0 = 0.05 /\ loss_threshold s0 = 0.10).
  { subst s0 sp. simpl. repeat split. }
  clearbody s0. clear Ep Hlp.
  destruct Hf as (F1 & F2 & F3 & F4 & F5 & F6 & F7 & F8).
  repeat (split; [assumption|]).
  split; [apply while_loop_reachable, reach_start|].
  rewrite Hrun. clear Hrun. unfold bind, try_except.
  destruct (while_loop ticks s0) as [[u|e] s1]; simpl.
  - apply stop_monitoring_frames.
  - destruct e; simpl;
      match goal with
         | |- context [stop_monitoring ?f ?a ?s] =>
             destruct (stop_monitoring_frames f a s) as [E1 E2];
             split;
             [eapply ext_same_trans; [|exact E1]
             |eapply fin_same_trans; [|exact E2]];
             repeat split
         end.
Qed.

(** ** Doubles *)

Section Doubles.

Import Binary64.
#[local] Set Warnings "-inexact-float".
#[local] Open Scope float_scope.
#[local] Open Scope bot64_scope.

Lemma positive_is_not_zero (x : float) : (0 <? x) = true -> (x =? 0) = false.
Proof.
  rewrite ltb_spec, eqb_spec.
  change (Prim2SF 0) with (S754_zero false).
  destruct (Prim2SF x) as [s|s| |s m e]; try destruct s; simpl;
    try discriminate; reflexivity.
Qed.

Lemma binary_round_aux_negative (m e : Z) (l : location) (x : spec_float) :
  binary_round_aux prec emax true m e l = x ->
  SFleb (S754_finite false 7205759403792794 (-57)) x = false.
Proof.
  unfold binary_round_aux.
  destruct (shr_fexp prec emax m e l) as [mrs e'].
  destruct (shr_fexp prec emax
              (round_nearest_even (shr_m mrs) (loc_of_shr_record mrs))
              e' loc_Exact) as [mrs' e''].
  destruct (shr_m mrs') as [|q|q]; intros <-; [reflexivity| |reflexivity].
  destruct (e'' <=? emax - prec)%Z; reflexivity.
Qed.

(** A change of at least 5% above a positive reference price is not the
    change of a price of zero. *)
Lemma gain_price_is_not_zero (r p : float) :
  (0 <? r) = true -> (0.05 <=? (p - r) / r) = true -> (p =? 0) = false.
Proof.
  rewrite ltb_spec, leb_spec, div_spec, sub_spec, eqb_spec.
  change (Prim2SF 0) with (S754_zero false).
  change (Prim2SF 0.05) with (S754_finite false 7205759403792794 (-57)).
  destruct (Prim2SF r) as [sr|sr| |sr mr er]; try destruct sr;
    try discriminate; intros _;
    destruct (Prim2SF p) as [sp|sp| |sp mp ep]; try destruct sp;
    try reflexivity; try discriminate;
    unfold SF64div, SF64sub, SFsub, SFdiv; simpl negb; simpl xorb;
    destruct (SFdiv_core_binary prec emax (Z.pos mr) er (Z.pos mr) er)
      as [[mz ez] lz];
    intros H;
    rewrite (binary_round_aux_negative mz ez lz _ eq_refl) in H;
    discriminate.
Qed.

Lemma get_position_total64 (positions : reply (list api_position))
  (t : option string) (s : Bot) :
  exists pos l,
    get_position positions t s = (Val pos, set_logger (logger s ++ l) s).
Proof.
  destruct s. destruct positions as [l|]; simpl.
  - destruct (first_match l t); eexists; exists [];
      unfold ret, set_logger; simpl; rewrite app_nil_r; reflexivity.
  - eexists; eexists; reflexivity.
Qed.

Lemma agree_from_spec (n : nat) :
  forall q0 q, agree_from n q0 = true ->
    (q0 <= q < q0 + Z.of_nat n)%Z -> five_percent_agrees q = true.
Proof.
  induction n as [|n IH]; intros q0 q H Hq; [lia|].
  simpl in H. apply andb_prop in H. destruct H as [H1 H2].
  destruct (Z.eq_dec q q0) as [->|Hne]; [exact H1|].
  apply (IH (q0 + 1)%Z); [exact H2|lia].
Qed.

Lemma five_percent_checked : agree_from (Z.to_nat 100000) 1 = true.
Proof. vm_compute. reflexivity. Qed.

(** Up to 100000 shares, [int(q * 0.05)] on doubles is [floor(q / 20)]. *)
Lemma five_percent_is_exact (q k : Z) (x : float) :
  (0 < q <= 100000)%Z ->
  float_of_int q = Val x -> int_of_float (x * 0.05) = Val k ->
  k = (q / 20)%Z.
Proof.
  intros Hq Hx Hk.
  assert (H : five_percent_agrees q = true).
  { apply (agree_from_spec (Z.to_nat 100000) 1 q five_percent_checked).
    rewrite Z2Nat.id; lia. }
  unfold five_percent_agrees in H. rewrite Hx, Hk in H.
  apply Z.eqb_eq. exact H.
Qed.

(** [calculate_rebalance_action] on doubles, once both prices are known
    to be truthy and the position has been looked up. *)
Lemma calculate_rebalance_action_runs
  (positions : reply (list api_position)) (s s1 : Bot) (ip cp : float)
  (pos : position_dict) :
  initial_price s = Some ip -> (ip =? 0) = false ->
  current_price s = Some cp -> (cp =? 0) = false ->
  get_position positions (ticker s) s = (Val pos, s1) ->
  calculate_rebalance_action positions s =
    ((if (gain_threshold s <=? (cp - ip) / ip) && (cash_reserve s =? 0)
      then
        if (0 <? qty pos)%Z then
          match float_of_int (qty pos) with
          | Val x =>
              match int_of_float (x * 0.05) with
              | Val k =>
                  Val (Some {| action := sell; action_qty := Z.max 1 k;
                               action_reason := gain_reached ((cp - ip) / ip);
                               reserve_cash := true; use_reserve := false |})
              | Exc e => Exc e
              end
          | Exc e => Exc e
          end
        else Val None
      else if ((cp - ip) / ip <=? - loss_threshold s)
              && (0 <? cash_reserve s)
      then
        if (0 <? cash_reserve s) && (0 <? cp) then
          match int_of_float (cash_reserve s / cp) with
          | Val k =>
              if (0 <? k)%Z then
                Val (Some {| action := buy; action_qty := k;
                             action_reason := loss_reached ((cp - ip) / ip);
                             reserve_cash := false; use_reserve := true |})
              else Val None
          | Exc e => Exc e
          end
        else Val None
      else Val None), s1).
Proof.
  intros Hi Hi0 Hc Hc0 Hpos.
  unfold calculate_rebalance_action, bind, get.
  rewrite Hi, Hc. unfold truthy. rewrite Hi0, Hc0. simpl.
  unfold py_div, bind. rewrite Hi0. simpl. rewrite Hpos.
  destruct ((gain_threshold s <=? (cp - ip) / ip) && (cash_reserve s =? 0)).
  - destruct (0 <? qty pos)%Z; [|reflexivity]. unfold lift.
    destruct (float_of_int (qty pos)) as [x|e]; [|reflexivity].
    destruct (int_of_float (x * 0.05)) as [k|e]; reflexivity.
  - destruct (((cp - ip) / ip <=? - loss_threshold s)
              && (0 <? cash_reserve s)); [|reflexivity].
    destruct ((0 <? cash_reserve s) && (0 <? cp)); [|reflexivity].
    rewrite Hc0. simpl. unfold lift.
    destruct (int_of_float (cash_reserve s / cp)) as [k|e]; [|reflexivity].
    destruct (0 <? k)%Z; reflexivity.
Qed.

(** Before the two prices are known to be truthy the method returns
    [None]. *)
Lemma calculate_rebalance_action_falsy
  (positions : reply (list api_position)) (s : Bot) :
  truthy (initial_price s) = false \/ truthy (current_price s) = false ->
  calculate_rebalance_action positions s = (Val None, s).
Proof.
  intros H. unfold calculate_rebalance_action, bind, get.
  destruct H as [H|H]; rewrite H; simpl; [reflexivity|].
  rewrite orb_true_r. reflexivity.
Qed.

(** On doubles too, neither division of [calculate_rebalance_action] is
    evaluated on a zero divisor. *)
Lemma calculate_rebalance_action_divides
  (positions : reply (list api_position)) (s : Bot) :
  fst (calculate_rebalance_action positions s) <> Exc ZeroDivisionError.
Proof.
  destruct (truthy (initial_price s)) eqn:Ti;
    [|rewrite calculate_rebalance_action_falsy by (left; exact Ti);
      discriminate].
  destruct (truthy (current_price s)) eqn:Tc;
    [|rewrite calculate_rebalance_action_falsy by (right; exact Tc);
      discriminate].
  destruct (initial_price s) as [ip|] eqn:Ei; [|discriminate].
  destruct (current_price s) as [cp|] eqn:Ec; [|discriminate].
  simpl in Ti, Tc. apply negb_true_iff in Ti, Tc.
  destruct (get_position_total64 positions (ticker s) s) as (pos & l & Epos).
  rewrite (calculate_rebalance_action_runs positions s _ ip cp pos
             Ei Ti Ec Tc Epos).
  unfold float_of_int, int_of_float. simpl.
  repeat match goal with
         | |- context [if ?b then _ else _] => destruct b
         end; simpl; discriminate.
Qed.

End Doubles.
(** * The claims *)

(** ** The rebalancing decision *)

Section DecisionOnDoubles.

Import Binary64.
#[local] Set Warnings "-inexact-float".
#[local] Open Scope float_scope.

(** C1, as stated, fails on Python's numbers.  A position of [2^1024]
    shares cannot be converted for [current_qty * 0.05]: the decision raises
    [OverflowError] instead of returning a sell.  At reference 3.00 and
    price 3.15 the change is 5%, but on doubles
    [(3.15 - 3.00) / 3.00 >= 0.05] is false and nothing is sold.  On [2^60]
    shares it sells
    57646075230342352, not [floor(2^60 * 0.05) = 57646075230342348]: the
    double [0.05] is not a twentieth.  And the reserve set by selling 5
    shares at 105.98 is the rounded product, not the product of 5 and the
    price. *)
Lemma gain_branch_beyond_doubles :
  fst (calculate_rebalance_action (holds (2 ^ 1024)) (session_at 100 105 0))
    = Exc OverflowError
  /\ ((5 # 100) <= ((315 # 100) - 3) / 3)%Q
  /\ fst (calculate_rebalance_action (holds 100) (session_at 3 3.15 0))
     = Val None
  /\ (exists a,
        fst (calculate_rebalance_action (holds (2 ^ 60))
               (session_at 100 105 0)) = Val (Some a)
        /\ action_qty a = 57646075230342352%Z
        /\ Z.max 1 (Qfloor (inject_Z (2 ^ 60) * (5 # 100)))
           = 57646075230342348%Z)
  /\ (exists a s2,
        calculate_rebalance_action (holds 100) (session_at 100 105.98 0)
          = (Val (Some a), session_at 100 105.98 0)
        /\ action_qty a = 5%Z
        /\ execute_rebalance a (Returned tt) 0 (session_at 100 105.98 0)
           = (Val true, s2)
        /\ ~ (real_value (cash_reserve s2) == 5 * real_value 105.98)%Q).
Proof.
  split; [vm_compute; reflexivity|].
  split; [vm_compute; discriminate|].
  split; [vm_compute; reflexivity|]. split.
  - eexists. split; [vm_compute; reflexivity|]. split; vm_compute; reflexivity.
  - eexists. eexists. split; [vm_compute; reflexivity|].
    split; [reflexivity|]. split; [vm_compute; reflexivity|].
    vm_compute. discriminate.
Qed.

(** C1, amended.  Gain branch: in a session with a positive reference price
    and no reserve, on a position of more than zero shares that converts to
    a double, a relative change of at least 0.05 (the gain threshold),
    computed on doubles, makes [calculate_rebalance_action] return a sell of
    [max(1, int(quantity * 0.05))] shares flagged [reserve_cash], the
    product being the one of doubles; up to 100000 shares that is
    [max(1, floor(quantity / 20))].  Executing it with an accepted order
    sets the reserve to the double product of the sold quantity and the
    current price. *)
Theorem gain_branch_sells_five_percent
  (s s1 : Bot) (positions : reply (list api_position)) (r p x y : float)
  (pos : position_dict) (k : Z) :
  initial_price s = Some r -> (0 <? r) = true ->
  current_price s = Some p ->
  (cash_reserve s =? 0) = true ->
  gain_threshold s = 0.05 ->
  (0.05 <=? (p - r) / r) = true ->
  get_position positions (ticker s) s = (Val pos, s1) ->
  (0 < qty pos)%Z ->
  float_of_int (qty pos) = Val x ->
  int_of_float (x * 0.05) = Val k ->
  float_of_int (Z.max 1 k) = Val y ->
  let decision :=
    {| action := sell; action_qty := Z.max 1 k;
       action_reason := gain_reached ((p - r) / r);
       reserve_cash := true; use_reserve := false |} in
  calculate_rebalance_action positions s = (Val (Some decision), s1)
  /\ ((qty pos <= 100000)%Z -> k = (qty pos / 20)%Z)
  /\ forall now, exists s2,
       execute_rebalance decision (Returned tt) now s1 = (Val true, s2)
       /\ cash_reserve s2 = y * p.
Proof.
  intros Hi Hr Hc Hres Hg Hpct Hpos Hq Hx Hk Hy decision.
  pose proof (positive_is_not_zero r Hr) as Hr0.
  pose proof (gain_price_is_not_zero r p Hr Hpct) as Hp0.
  split; [|split].
  - unfold calculate_rebalance_action, bind, get.
    rewrite Hi, Hc. unfold truthy. rewrite Hr0, Hp0. simpl.
    unfold py_div, bind. rewrite Hr0. simpl. rewrite Hpos.
    rewrite Hg, Hpct, Hres. simpl.
    apply Z.ltb_lt in Hq. rewrite Hq.
    unfold lift. rewrite Hx, Hk. reflexivity.
  - intros Hle. apply (five_percent_is_exact (qty pos) k x); [lia| |];
      assumption.
  - intros now.
    assert (Hc1 : current_price s1 = Some p).
    { destruct (get_position_total64 positions (ticker s) s)
        as (pos' & l & E). rewrite E in Hpos. injection Hpos as _ <-.
      exact Hc. }
    unfold execute_rebalance, try_except, bind, get. simpl.
    rewrite Hc1. simpl. unfold lift. rewrite Hy. simpl.
    eexists. split; reflexivity.
Qed.

(** The scenario of C1: reference 100, 100 shares, price 105.00: sell 5, and
    the reserve becomes 525.00. *)
Lemma gain_branch_sells_five_percent_witness :
  exists s2,
    calculate_rebalance_action (holds 100) (session_at 100 105 0) =
      (Val (Some {| action := sell; action_qty := 5;
                    action_reason := gain_reached ((105 - 100) / 100);
                    reserve_cash := true; use_reserve := false |}),
       session_at 100 105 0)
    /\ execute_rebalance
         {| action := sell; action_qty := 5;
            action_reason := gain_reached ((105 - 100) / 100);
            reserve_cash := true; use_reserve := false |}
         (Returned tt) 0 (session_at 100 105 0) = (Val true, s2)
    /\ cash_reserve s2 = 525.
Proof.
  destruct (gain_branch_sells_five_percent
              (session_at 100 105 0) (session_at 100 105 0) (holds 100)
              100 105 100 5
              {| qty := 100; market_value := 0; avg_entry_price := 0;
                 unrealized_pl := 0; unrealized_plpc := 0 |} 5)
    as (Hd & _ & He); try reflexivity.
  destruct (He 0%Z) as (s2 & E & Hcash).
  exists s2. split; [exact Hd|]. split; [exact E|].
  rewrite Hcash. reflexivity.
Defined.

(** C2, as stated, fails on Python's numbers: the quantity is the integer
    part of the quotient of doubles, which is not the floor of the quotient.
    With a reserve of 5.5 and a price of 1.1 the bot buys 5 shares, though
    the double nearest to 1.1 is above 1.1 and the quotient of the two
    doubles is below 5; with a reserve of 3818.43 and a price of 49.59,
    where [3818.43 / 49.59] is 77, it buys 76.  With a reserve of 1e308 and
    a price of 1e-308 the quotient is infinite, and the decision raises
    [OverflowError]. *)
Lemma loss_branch_quotient_is_rounded :
  (exists a,
     fst (calculate_rebalance_action (holds 0) (session_at 2 1.1 5.5))
       = Val (Some a)
     /\ action a = buy /\ action_qty a = 5%Z
     /\ Qfloor (real_value 5.5 / real_value 1.1) = 4%Z)
  /\ (exists a,
        fst (calculate_rebalance_action (holds 0)
               (session_at 60 49.59 3818.43)) = Val (Some a)
        /\ action a = buy /\ action_qty a = 76%Z
        /\ Qfloor ((381843 # 100) / (4959 # 100)) = 77%Z)
  /\ fst (calculate_rebalance_action (holds 0) (session_at 100 1e-308 1e308))
     = Exc OverflowError.
Proof.
  split; [|split].
  - eexists. split; [vm_compute; reflexivity|].
    split; [reflexivity|]. split; [reflexivity|]. vm_compute. reflexivity.
  - eexists. split; [vm_compute; reflexivity|].
    split; [reflexivity|]. split; [reflexivity|]. vm_compute. reflexivity.
  - vm_compute. reflexivity.
Qed.

(** C2, amended.  Loss branch: in a session with a positive reference price
    and a positive reserve (so the gain test, which needs a zero reserve,
    has not fired), a relative change of at most -0.10 (the loss threshold),
    computed on doubles, makes [calculate_rebalance_action] return, at a
    positive price, a buy of [int(cash_reserve / current_price)] shares
    flagged [use_reserve] when that integer part of the quotient of doubles
    exists and is positive, and [None] when it is zero; at a price that is
    not positive it returns [None].  Executing the buy with an accepted
    order sets the reserve to 0. *)
Theorem loss_branch_buys_with_reserve
  (s : Bot) (positions : reply (list api_position)) (r p : float) :
  initial_price s = Some r -> (0 <? r) = true ->
  current_price s = Some p ->
  (0 <? cash_reserve s) = true ->
  loss_threshold s = 0.10 ->
  ((p - r) / r <=? - (0.10)) = true ->
  let decided := calculate_rebalance_action positions s in
  (forall k,
     (0 <? p) = true -> int_of_float (cash_reserve s / p) = Val k ->
     let decision :=
       {| action := buy; action_qty := k;
          action_reason := loss_reached ((p - r) / r);
          reserve_cash := false; use_reserve := true |} in
     ((0 < k)%Z ->
      fst decided = Val (Some decision)
      /\ forall now, exists s2,
           execute_rebalance decision (Returned tt) now (snd decided) =
             (Val true, s2)
           /\ cash_reserve s2 = 0)
     /\ ((k <= 0)%Z -> fst decided = Val None))
  /\ ((0 <? p) = false -> fst decided = Val None).
Proof.
  intros Hi Hr Hc Hres Hl Hpct decided.
  pose proof (positive_is_not_zero r Hr) as Hr0.
  pose proof (positive_is_not_zero _ Hres) as Hres0.
  destruct (get_position_total64 positions (ticker s) s) as (pos & l & Epos).
  assert (Hd : (p =? 0) = false ->
               decided =
                 (if 0 <? p then
                    match int_of_float (cash_reserve s / p) with
                    | Val k =>
                        if (0 <? k)%Z then
                          Val (Some {| action := buy; action_qty := k;
                                       action_reason :=
                                         loss_reached ((p - r) / r);
                                       reserve_cash := false;
                                       use_reserve := true |})
                        else Val None
                    | Exc e => Exc e
                    end
                  else Val None,
                  set_logger (logger s ++ l) s)).
  { intros Hp0. unfold decided, calculate_rebalance_action, bind, get.
    rewrite Hi, Hc. unfold truthy. rewrite Hr0, Hp0. simpl.
    unfold py_div, bind. rewrite Hr0. simpl. rewrite Epos.
    rewrite Hres0, andb_false_r, Hl, Hpct, Hres. simpl.
    destruct (0 <? p) eqn:Ep; [|reflexivity].
    rewrite Hp0. simpl. unfold lift.
    destruct (int_of_float (cash_reserve s / p)) as [k|e]; [|reflexivity].
    destruct (0 <? k)%Z; reflexivity. }
  split.
  - intros k Hp Hk decision.
    rewrite (Hd (positive_is_not_zero p Hp)), Hp, Hk. split.
    + intros Hq. apply Z.ltb_lt in Hq. rewrite Hq. simpl.
      split; [reflexivity|]. intros now.
      unfold execute_rebalance, try_except, bind, get. simpl.
      eexists. split; reflexivity.
    + intros Hq. apply Z.ltb_ge in Hq. rewrite Hq. reflexivity.
  - intros Hp. destruct (p =? 0) eqn:Hp0.
    + unfold decided, calculate_rebalance_action, bind, get.
      rewrite Hi, Hc. unfold truthy. rewrite Hr0, Hp0. reflexivity.
    + rewrite (Hd eq_refl), Hp. reflexivity.
Qed.

(** The scenario of C2: reserve 525.00, reference 100, price 90.00: buy
    [int(525.00 / 90.00) = 5], and the reserve becomes 0. *)
Lemma loss_branch_buys_with_reserve_witness :
  exists s2,
    fst (calculate_rebalance_action (holds 95) (session_at 100 90 525)) =
      Val (Some {| action := buy; action_qty := 5;
                   action_reason := loss_reached ((90 - 100) / 100);
                   reserve_cash := false; use_reserve := true |})
    /\ execute_rebalance
         {| action := buy; action_qty := 5;
            action_reason := loss_reached ((90 - 100) / 100);
            reserve_cash := false; use_reserve := true |}
         (Returned tt) 0
         (snd (calculate_rebalance_action (holds 95) (session_at 100 90 525)))
       = (Val true, s2)
    /\ cash_reserve s2 = 0.
Proof.
  destruct (loss_branch_buys_with_reserve
              (session_at 100 90 525) (holds 95) 100 90)
    as [Hbuy _]; try reflexivity.
  destruct (Hbuy 5%Z) as [Hpos _]; try reflexivity.
  destruct Hpos as [Hd He]; [reflexivity|].
  destruct (He 0%Z) as (s2 & E & Hcash).
  exists s2. split; [exact Hd|]. split; [exact E|exact Hcash].
Defined.

End DecisionOnDoubles.

(** C6, as stated, fails: the guard of [calculate_rebalance_action] tests
    truthiness, and a negative reference price is truthy.  With reference
    -100, price -110, no reserve and 100 shares the method returns a sell. *)
Lemma negative_reference_is_not_rejected :
  initial_price (session_at (-100) (-110) 0) = Some (-100)
  /\ -100 < 0
  /\ fst (calculate_rebalance_action (holds 100)
            (session_at (-100) (-110) 0)) =
       Val (Some {| action := sell; action_qty := 5;
                    action_reason := gain_reached ((-110 - -100) / -100);
                    reserve_cash := true; use_reserve := false |}).
Proof. split; [reflexivity|]. split; reflexivity. Qed.

(** C6, amended. For every session whose reference price is unset or zero,
    [calculate_rebalance_action] returns [None] and leaves the session as it
    is, for every current price and every answer to the position lookup. *)
Theorem unset_or_zero_reference_returns_none
  (s : Bot) (positions : reply (list api_position)) :
  initial_price s = None
  \/ (exists r, initial_price s = Some r /\ r == 0) ->
  calculate_rebalance_action positions s = (Val None, s).
Proof.
  intros H. apply calculate_rebalance_action_guard. left.
  destruct H as [H|(r & H & Hr)]; rewrite H; simpl; [reflexivity|].
  apply Qeq_bool_iff in Hr. rewrite Hr. reflexivity.
Qed.

Lemma unset_or_zero_reference_returns_none_witness :
  calculate_rebalance_action (holds 100) (session_at 0 105 0) =
    (Val None, session_at 0 105 0)
  /\ calculate_rebalance_action (holds 100) init = (Val None, init).
Proof.
  split.
  - apply unset_or_zero_reference_returns_none. right.
    exists 0. split; reflexivity.
  - apply unset_or_zero_reference_returns_none. left. reflexivity.
Defined.

(** C10. A quoted price of exactly 0 is treated like an absent one: a pass
    of the loop that is quoted 0 leaves the session untouched, and
    [calculate_rebalance_action] returns [None] when the current or the
    reference price is 0; and for every session and every answer of the
    broker neither division of [calculate_rebalance_action] is evaluated on
    a zero divisor, on exact numbers and on doubles alike: it does not
    raise [ZeroDivisionError]. *)
Theorem zero_price_is_absent
  (t : replies) (s : Bot) (positions : reply (list api_position)) (p : Q) :
  p == 0 ->
  (get_latest_trade t = Returned p -> loop_body t s = (Val tt, s))
  /\ (current_price s = Some p \/ initial_price s = Some p ->
      calculate_rebalance_action positions s = (Val None, s))
  /\ (forall s0 positions0,
        fst (calculate_rebalance_action positions0 s0)
        <> Exc ZeroDivisionError)
  /\ (forall s0 positions0,
        fst (Binary64.calculate_rebalance_action positions0 s0)
        <> Binary64.Exc Binary64.ZeroDivisionError).
Proof.
  intros Hp. split; [|split; [|split]].
  - intros Ht. apply (loop_body_zero_price t s p); assumption.
  - intros H. apply calculate_rebalance_action_guard.
    apply Qeq_bool_iff in Hp.
    destruct H as [H|H]; [right|left]; rewrite H; simpl; rewrite Hp;
      reflexivity.
  - intros s0 positions0.
    destruct (calculate_rebalance_action_returns positions0 s0)
      as (act & s' & E).
    rewrite E. discriminate.
  - intros s0 positions0. apply calculate_rebalance_action_divides.
Qed.

Lemma zero_price_is_absent_witness :
  loop_body (pass_at 0 100) (session_at 100 105 0) =
    (Val tt, session_at 100 105 0)
  /\ calculate_rebalance_action (holds 100) (session_at 100 0 525) =
       (Val None, session_at 100 0 525).
Proof.
  destruct (zero_price_is_absent (pass_at 0 100) (session_at 100 105 0)
              (holds 100) 0) as (H1 & _); [reflexivity|].
  destruct (zero_price_is_absent (pass_at 0 100) (session_at 100 0 525)
              (holds 100) 0) as (_ & H2 & _); [reflexivity|].
  split; [apply H1; reflexivity | apply H2; left; reflexivity].
Defined.

(** ** Orders and the market check *)

(** C5. [is_market_open] does not return the status the broker reports: it
    returns [True] for every clock that the lookup returns, also for one
    that says the market is closed, and the loop then trades in a closed
    market (here: reference 100, 100 shares, a quote of 110: 5 shares are
    sold). *)
Theorem is_market_open_ignores_clock :
  (forall (c : clock) (s : Bot), is_market_open (Returned c) s = (Val true, s))
  /\ is_market_open (Returned {| is_open := false |}) init = (Val true, init)
  /\ map (fun tr => (trade_side tr, trade_qty tr, trade_price tr))
       (trades_today
          (snd (while_loop [pass_market_closed 110 100]
                  (session_at 100 100 0)))) =
     [(sell, 5%Z, Some 110)].
Proof.
  split; [reflexivity|]. split; [reflexivity|].
  vm_compute. reflexivity.
Qed.

(** C7. A refused order mutates no financial state: [execute_rebalance]
    returns [False] and leaves the reserve and the ledger as they were, and
    so does the whole pass of the loop; a trade is appended to the ledger if
    and only if the broker accepted the order. *)
Theorem refused_order_changes_nothing
  (a : action_dict) (order : reply unit) (now : Z) (s : Bot) (t : replies) :
  let executed := execute_rebalance a order now s in
  (order = Raised ->
   fst executed = Val false
   /\ cash_reserve (snd executed) = cash_reserve s
   /\ trades_today (snd executed) = trades_today s)
  /\ ((exists tr, trades_today (snd executed) = trades_today s ++ [tr])
      <-> order = Returned tt)
  /\ (submit_order t = Raised ->
      cash_reserve (snd (loop_body t s)) = cash_reserve s
      /\ trades_today (snd (loop_body t s)) = trades_today s).
Proof.
  intros executed. split; [|split].
  - intros ->. unfold executed. rewrite execute_rebalance_raised.
    repeat split.
  - split.
    + intros (tr & H). destruct order as [[]|]; [reflexivity|].
      unfold executed in H. rewrite execute_rebalance_raised in H.
      simpl in H. symmetry in H. exfalso. exact (app_one_neq _ _ H).
    + intros ->. eexists. unfold executed.
      apply execute_rebalance_records.
  - intros Ht. destruct (loop_body_refused_fin_same t Ht s) as (H1 & H2 & _).
    split; assumption.
Qed.

Lemma refused_order_changes_nothing_witness :
  fst (execute_rebalance sell_five Raised 0 (session_at 100 105 0)) =
    Val false
  /\ cash_reserve
       (snd (execute_rebalance sell_five Raised 0 (session_at 100 105 0)))
     = 0
  /\ trades_today
       (snd (execute_rebalance sell_five Raised 0 (session_at 100 105 0)))
     = []
  /\ (exists tr,
        trades_today
          (snd (execute_rebalance sell_five (Returned tt) 0
                  (session_at 100 105 0))) = [] ++ [tr])
  /\ trades_today (snd (loop_body (pass_refused 105 100)
                          (session_at 100 100 0))) = [].
Proof.
  destruct (refused_order_changes_nothing sell_five Raised 0
              (session_at 100 105 0) (pass_refused 105 100))
    as (H1 & _ & _).
  destruct (H1 eq_refl) as (Ha & Hb & Hc).
  destruct (refused_order_changes_nothing sell_five (Returned tt) 0
              (session_at 100 105 0) (pass_refused 105 100))
    as (_ & H2 & _).
  destruct (refused_order_changes_nothing sell_five Raised 0
              (session_at 100 100 0) (pass_refused 105 100))
    as (_ & _ & H3).
  destruct (H3 eq_refl) as (_ & Hd).
  split; [exact Ha|]. split; [exact Hb|]. split; [exact Hc|].
  split; [apply H2; reflexivity | exact Hd].
Defined.

(** ** The monitoring loop *)

(** C9. A pass of the loop whose price lookup fails (or yields a zero
    price) returns normally, so the loop goes on to its sleep, and changes
    nothing of the session but the logger: current price, daily high, daily
    low, reserve and ledger are as before.  The same holds for the whole
    loop over any number of consecutive such passes. *)
Theorem absent_price_changes_nothing
  (s : Bot) (t : replies) (ticks : list replies) :
  (price_absent t ->
   fst (loop_body t s) = Val tt
   /\ logged_only s (snd (loop_body t s)))
  /\ (Forall price_absent ticks ->
      let s' := snd (while_loop ticks s) in
      logged_only s s'
      /\ current_price s' = current_price s
      /\ daily_high s' = daily_high s
      /\ daily_low s' = daily_low s
      /\ cash_reserve s' = cash_reserve s
      /\ trades_today s' = trades_today s).
Proof.
  split.
  - intros H. split.
    + destruct (loop_body_absent t s H) as [E|E]; rewrite E; reflexivity.
    + apply loop_body_absent_logged_only. exact H.
  - intros H s'.
    assert (Hlog : logged_only s s')
      by (apply while_loop_absent_logged_only; exact H).
    split; [exact Hlog|].
    destruct Hlog as [l ->]. repeat split.
Qed.

(** Three passes in a row without a price. *)
Lemma absent_price_changes_nothing_witness :
  fst (loop_body (pass_unpriced 100) (session_at 100 105 0)) = Val tt
  /\ trades_today
       (snd (while_loop
               [pass_unpriced 100; pass_unpriced 100; pass_unpriced 100]
               (session_at 100 105 0))) = []
  /\ daily_high
       (snd (while_loop
               [pass_unpriced 100; pass_unpriced 100; pass_unpriced 100]
               (session_at 100 105 0))) = Some 100.
Proof.
  assert (Ha : price_absent (pass_unpriced 100)) by (left; reflexivity).
  destruct (absent_price_changes_nothing (session_at 100 105 0)
              (pass_unpriced 100)
              [pass_unpriced 100; pass_unpriced 100; pass_unpriced 100])
    as [H1 H2].
  destruct (H1 Ha) as [Hv _].
  destruct (H2 (Forall_cons _ Ha (Forall_cons _ Ha
                  (Forall_cons _ Ha (Forall_nil _)))))
    as (_ & _ & Hh & _ & _ & Htr).
  split; [exact Hv|]. split; [exact Htr|exact Hh].
Defined.

(** C3, as stated, fails: a reference price may be negative, and then a
    sets-reserve update leaves a negative reserve.  With reference -100,
    price -110 and 100 shares the pass sells 5 shares and the reserve
    becomes -550; so does the whole run from [__init__]. *)
Lemma reserve_set_negative :
  cash_reserve (session_at (-100) (-100) 0) == 0
  /\ map (fun tr => (trade_side tr, trade_qty tr))
       (trades_today
          (snd (loop_body (pass_at (-110) 100)
                  (session_at (-100) (-100) 0)))) = [(sell, 5%Z)]
  /\ cash_reserve
       (snd (loop_body (pass_at (-110) 100) (session_at (-100) (-100) 0)))
     == -550
  /\ ~ 0 < cash_reserve
           (snd (loop_body (pass_at (-110) 100)
                   (session_at (-100) (-100) 0)))
  /\ cash_reserve
       (snd (start_monitoring "aapl" (Returned (-100)) (holds 100)
               [pass_at (-110) 100] (holds 95) no_account init))
     == -550.
Proof.
  split; [reflexivity|]. split; [vm_compute; reflexivity|].
  split; [vm_compute; reflexivity|]. split; [vm_compute; discriminate|].
  vm_compute. reflexivity.
Qed.

(** C3, amended. In a session whose reference price is positive, in every
    state that any sequence of market checks and loop passes leads to, the
    next pass either leaves reserve and ledger alone, or records a sell, in
    which case the reserve was 0 and becomes strictly positive (sets-reserve),
    or records a buy, in which case the reserve was strictly positive and
    becomes exactly 0 (clears-reserve); and a reserve that starts
    non-negative is never negative. *)
Theorem reserve_set_at_zero_cleared_when_positive
  (s0 s : Bot) (r : Q) (t : replies) :
  initial_price s0 = Some r -> 0 < r ->
  gain_threshold s0 = 0.05 ->
  reachable s0 s ->
  reserve_update s (snd (loop_body t s))
  /\ (0 <= cash_reserve s0 -> 0 <= cash_reserve s).
Proof.
  intros Hi Hr Hg Hreach. split.
  - destruct (reachable_config_same s0 s Hreach) as (Ci & Cg & _).
    apply loop_body_updates; [exists r; split; congruence | congruence].
  - apply (reachable_reserve_nonneg s0 s r); assumption.
Qed.

(** The gain pass of the scenario, after one earlier quiet pass. *)
Lemma reserve_set_at_zero_cleared_when_positive_witness :
  reserve_update
    (snd (loop_body (pass_at 101 100) (session_at 100 100 0)))
    (snd (loop_body (pass_at 105 100)
            (snd (loop_body (pass_at 101 100) (session_at 100 100 0)))))
  /\ 0 <= cash_reserve
            (snd (loop_body (pass_at 101 100) (session_at 100 100 0))).
Proof.
  destruct (reserve_set_at_zero_cleared_when_positive
              (session_at 100 100 0)
              (snd (loop_body (pass_at 101 100) (session_at 100 100 0)))
              100 (pass_at 105 100)) as [H1 H2];
    try reflexivity.
  - apply reach_body. apply reach_start.
  - split; [exact H1|]. apply H2. discriminate.
Defined.




(** C8. From the state that [start_monitoring] sets up (reference price,
    current price, daily high and daily low all equal to the first quote),
    through any sequence of market checks and loop passes: at every point
    the daily high is at least the reference price and the current price
    and the daily low at most both, and at every later point the high is no
    lower and the low no higher.  So the final high bounds the reference
    price and every price observed on the way from above, and the final low
    bounds them from below. *)
Theorem daily_extremes_only_widen (s0 s s' : Bot) (r : Q) :
  initial_price s0 = Some r ->
  current_price s0 = Some r ->
  daily_high s0 = Some r -> daily_low s0 = Some r ->
  reachable s0 s -> reachable s s' ->
  exists c h l h' l',
    current_price s = Some c
    /\ daily_high s = Some h /\ daily_low s = Some l
    /\ daily_high s' = Some h' /\ daily_low s' = Some l'
    /\ l' <= l /\ l <= r /\ l <= c
    /\ c <= h /\ r <= h /\ h <= h'.
Proof.
  intros Hi Hc Hh Hl Hreach Hreach'.
  assert (H0 : extremes_hold r s0).
  { split; [exact Hi|]. exists r, r, r.
    repeat split; try assumption; apply Qle_refl. }
  destruct (reachable_extremes r s0 s H0 Hreach) as [Hs _].
  destruct (reachable_extremes r s s' Hs Hreach') as [_ Hw].
  destruct Hs as (_ & c & h & l & Hc' & Hh' & Hl' & A & B & C & D).
  destruct (Hw h l Hh' Hl') as (h' & l' & Hh'' & Hl'' & E & F).
  exists c, h, l, h', l'. repeat split; assumption.
Qed.

(** Reference 100; a pass at 105, then a pass at 95. *)
Lemma daily_extremes_only_widen_witness :
  exists c h l h' l',
    current_price (snd (loop_body (pass_at 105 100) (session_at 100 100 0)))
      = Some c
    /\ daily_high (snd (loop_body (pass_at 105 100) (session_at 100 100 0)))
       = Some h
    /\ daily_low (snd (loop_body (pass_at 105 100) (session_at 100 100 0)))
       = Some l
    /\ daily_high
         (snd (loop_body (pass_at 95 100)
                 (snd (loop_body (pass_at 105 100) (session_at 100 100 0)))))
       = Some h'
    /\ daily_low
         (snd (loop_body (pass_at 95 100)
                 (snd (loop_body (pass_at 105 100) (session_at 100 100 0)))))
       = Some l'
    /\ l' <= l /\ l <= 100 /\ l <= c /\ c <= h /\ 100 <= h /\ h <= h'.
Proof.
  apply (daily_extremes_only_widen (session_at 100 100 0));
    try reflexivity.
  - apply reach_body, reach_start.
  - apply reach_body, reach_start.
Defined.

(** * Further properties of the code *)

(** ** Lookups *)

Lemma first_match_skips (pre post : list api_position) (p : api_position)
  (name : string) :
  (forall q, In q pre -> symbol q <> name) -> symbol p = name ->
  first_match (pre ++ p :: post) (Some name) = Some (holding p).
Proof.
  intros Hpre Hp. induction pre as [|q pre IH]; simpl.
  - rewrite Hp, String.eqb_refl. reflexivity.
  - destruct (String.eqb (symbol q) name) eqn:E.
    + apply String.eqb_eq in E. exfalso.
      apply (Hpre q); [left; reflexivity|exact E].
    + apply IH. intros q' Hq'. apply Hpre. right. exact Hq'.
Qed.

Lemma first_match_none (l : list api_position) (name : string) :
  (forall q, In q l -> symbol q <> name) ->
  first_match l (Some name) = None.
Proof.
  intros H. induction l as [|q l IH]; simpl; [reflexivity|].
  destruct (String.eqb (symbol q) name) eqn:E.
  - apply String.eqb_eq in E. exfalso.
    apply (H q); [left; reflexivity|exact E].
  - apply IH. intros q' Hq'. apply H. right. exact Hq'.
Qed.

Lemma first_match_unset (l : list api_position) : first_match l None = None.
Proof. induction l as [|q l IH]; simpl; [reflexivity|exact IH]. Qed.

(** X1. [get_position] returns the holding of the first listed position
    whose symbol is the ticker, whatever is listed after it; when no listed
    symbol is the ticker, or the ticker is unset, it returns the all-zero
    dict; in each case the bot is left as it was. *)
Theorem get_position_finds_first
  (pre post l : list api_position) (p : api_position) (name : string)
  (s : Bot) :
  ((forall q, In q pre -> symbol q <> name) -> symbol p = name ->
   get_position (Returned (pre ++ p :: post)) (Some name) s =
     (Val (holding p), s))
  /\ ((forall q, In q l -> symbol q <> name) ->
      get_position (Returned l) (Some name) s = (Val zero_position, s))
  /\ get_position (Returned l) None s = (Val zero_position, s).
Proof.
  split; [|split].
  - intros Hpre Hp. simpl.
    rewrite (first_match_skips pre post p name Hpre Hp). reflexivity.
  - intros H. simpl. rewrite (first_match_none l name H). reflexivity.
  - simpl. rewrite first_match_unset. reflexivity.
Qed.

Lemma get_position_finds_first_witness :
  fst (get_position (Returned (two_listed 3 40)) (Some "AAPL"%string) init)
    = Val {| qty := 40; market_value := 0; avg_entry_price := 0;
             unrealized_pl := 0; unrealized_plpc := 0 |}
  /\ fst (get_position (Returned (two_listed 3 40)) (Some "TSLA"%string)
            init) = Val zero_position.
Proof.
  destruct (get_position_finds_first
              [{| symbol := "MSFT"%string;
                  holding := {| qty := 3; market_value := 0;
                                avg_entry_price := 0; unrealized_pl := 0;
                                unrealized_plpc := 0 |} |}]
              [{| symbol := "AAPL"%string;
                  holding := {| qty := 7; market_value := 0;
                                avg_entry_price := 0; unrealized_pl := 0;
                                unrealized_plpc := 0 |} |}]
              (two_listed 3 40)
              {| symbol := "AAPL"%string;
                 holding := {| qty := 40; market_value := 0;
                               avg_entry_price := 0; unrealized_pl := 0;
                               unrealized_plpc := 0 |} |}
              "AAPL"%string init) as (H1 & _ & _).
  destruct (get_position_finds_first [] [] (two_listed 3 40)
              {| symbol := "AAPL"%string; holding := zero_position |}
              "TSLA"%string init) as (_ & H2 & _).
  split.
  - change (two_listed 3 40) with
      ([{| symbol := "MSFT"%string;
           holding := {| qty := 3; market_value := 0;
                         avg_entry_price := 0; unrealized_pl := 0;
                         unrealized_plpc := 0 |} |}] ++
       {| symbol := "AAPL"%string;
          holding := {| qty := 40; market_value := 0;
                        avg_entry_price := 0; unrealized_pl := 0;
                        unrealized_plpc := 0 |} |} ::
       [{| symbol := "AAPL"%string;
           holding := {| qty := 7; market_value := 0;
                         avg_entry_price := 0; unrealized_pl := 0;
                         unrealized_plpc := 0 |} |}]).
    rewrite H1; [reflexivity| |reflexivity].
    intros q [<-|[]]. simpl. discriminate.
  - rewrite H2; [reflexivity|].
    intros q [<-|[<-|[<-|[]]]]; simpl; discriminate.
Defined.

(** ** The size of an order *)

Lemma sell_qty_bounds (q : Z) :
  (0 < q)%Z ->
  (1 <= Z.max 1 (py_int (inject_Z q * 0.05)) <= q)%Z.
Proof.
  intros Hq. split; [lia|].
  assert (H0 : 0 < inject_Z q) by (apply inject_Z_pos; exact Hq).
  rewrite py_int_floor by lra.
  apply Z.max_lub; [lia|].
  rewrite Zle_Qle.
  apply Qle_trans with (inject_Z q * 0.05); [apply Qfloor_le|]. lra.
Qed.

(** X2. Whatever [calculate_rebalance_action] decides to sell is at least
    one share and at most the shares held; the sell is flagged
    [reserve_cash] and is only decided on a zero reserve. *)
Theorem sell_is_within_the_position
  (positions : reply (list api_position)) (s s1 : Bot) (a : action_dict) :
  calculate_rebalance_action positions s = (Val (Some a), s1) ->
  action a = sell ->
  reserve_cash a = true /\ use_reserve a = false
  /\ cash_reserve s == 0
  /\ exists pos,
       get_position positions (ticker s) s = (Val pos, s1)
       /\ (1 <= action_qty a <= qty pos)%Z.
Proof.
  intros H Hsell.
  destruct (calculate_rebalance_action_some _ _ _ _ H)
    as (ip & cp & pos & _ & _ & _ & _ & Hpos & Hbr).
  destruct Hbr as [(_ & Hres & Hq & ->)|(_ & _ & _ & _ & ->)];
    [|discriminate].
  simpl. repeat split; try assumption.
  exists pos. split; [exact Hpos|]. apply sell_qty_bounds. exact Hq.
Qed.

Lemma sell_is_within_the_position_witness :
  exists pos,
    get_position (holds 100) (ticker (session_at 100 105 0))
      (session_at 100 105 0) = (Val pos, session_at 100 105 0)
    /\ (1 <= action_qty sell_five <= qty pos)%Z.
Proof.
  destruct (sell_is_within_the_position (holds 100) (session_at 100 105 0)
              (session_at 100 105 0) sell_five)
    as (_ & _ & _ & H); [reflexivity|reflexivity|exact H].
Defined.

Section OrdersOnDoubles.

Import Binary64.
#[local] Set Warnings "-inexact-float".
#[local] Open Scope float_scope.



End OrdersOnDoubles.



(** ** Deciding twice *)

Lemma get_position_value (r : reply (list api_position)) (t : option string)
  (s s' : Bot) :
  fst (get_position r t s) = fst (get_position r t s').
Proof.
  destruct r as [l|]; simpl; [|reflexivity].
  destruct (first_match l t); reflexivity.
Qed.

(** X5. [calculate_rebalance_action] changes nothing of the bot but the
    logger, and deciding again on the bot it leaves, with the same answer
    of the broker, gives the same decision. *)
Theorem deciding_again_decides_the_same
  (positions : reply (list api_position)) (s : Bot) :
  logged_only s (snd (calculate_rebalance_action positions s))
  /\ fst (calculate_rebalance_action positions
            (snd (calculate_rebalance_action positions s)))
     = fst (calculate_rebalance_action positions s).
Proof.
  pose proof (calculate_rebalance_action_logged_only positions s) as Hlog.
  split; [exact Hlog|].
  destruct Hlog as [l Hl]. rewrite Hl.
  set (s' := set_logger (logger s ++ l) s).
  destruct (truthy (initial_price s)) eqn:Ti.
  2: { rewrite !calculate_rebalance_action_guard by (left; exact Ti).
       reflexivity. }
  destruct (truthy (current_price s)) eqn:Tc.
  2: { rewrite !calculate_rebalance_action_guard by (right; exact Tc).
       reflexivity. }
  destruct (initial_price s) as [ip|] eqn:Ei; [|discriminate].
  destruct (current_price s) as [cp|] eqn:Ec; [|discriminate].
  apply truthy_Some in Ti, Tc.
  destruct (get_position_total positions (ticker s) s)
    as (pos & s1 & E1 & _).
  destruct (get_position_total positions (ticker s') s')
    as (pos' & s1' & E1' & _).
  assert (Hpos : pos' = pos).
  { pose proof (get_position_value positions (ticker s) s s') as H.
    change (ticker s') with (ticker s) in E1'.
    rewrite E1, E1' in H. simpl in H. congruence. }
  subst pos'.
  rewrite (calculate_rebalance_action_decides positions s s1 ip cp pos)
    by assumption.
  rewrite (calculate_rebalance_action_decides positions s' s1' ip cp pos)
    by assumption.
  reflexivity.
Qed.

(** ** An edge of [execute_rebalance] *)

(** X6. On a bot whose current price is unset, an accepted order of an
    action flagged [reserve_cash] is recorded in the ledger, but computing
    the reserve raises; the exception is caught and logged,
    [execute_rebalance] returns [False], and the reserve stays as it was. *)
Theorem unset_price_records_but_reports_failure
  (a : action_dict) (now : Z) (s : Bot) :
  current_price s = None -> reserve_cash a = true ->
  let s' := snd (execute_rebalance a (Returned tt) now s) in
  fst (execute_rebalance a (Returned tt) now s) = Val false
  /\ trades_today s' =
       trades_today s ++
         [{| timestamp := now; trade_ticker := ticker s;
             trade_side := action a; trade_qty := action_qty a;
             trade_price := None; trade_reason := action a |}]
  /\ cash_reserve s' = cash_reserve s
  /\ In (ERROR, execute_error TypeError) (logger s').
Proof.
  intros Hc Hflag s'. unfold s'.
  unfold execute_rebalance, try_except, bind. simpl.
  rewrite Hflag. simpl. rewrite Hc. simpl.
  repeat split. apply in_or_app. right. left. reflexivity.
Qed.

Lemma unset_price_records_but_reports_failure_witness :
  fst (execute_rebalance sell_five (Returned tt) 0 init) = Val false
  /\ List.length
       (trades_today (snd (execute_rebalance sell_five (Returned tt) 0 init)))
     = 1%nat.
Proof.
  destruct (unset_price_records_but_reports_failure sell_five 0 init)
    as (H1 & H2 & _); [reflexivity|reflexivity|].
  split; [exact H1|]. rewrite H2. reflexivity.
Defined.

(** ** One pass, from any state *)

Lemma rebalance_config_same (t : replies) : effect config_same (rebalance t).
Proof.
  unfold rebalance.
  effect_steps config_same_refl config_same_trans logged_only_config_same;
    apply execute_rebalance_config_same.
Qed.

Lemma rebalance_alone_ext_same (t : replies) : effect ext_same (rebalance t).
Proof.
  unfold rebalance.
  effect_steps ext_same_refl ext_same_trans logged_only_ext_same;
    apply execute_rebalance_ext_same.
Qed.

(** An effect of the end of a pass is an effect of the pass, when it goes
    through what comes before and the sleep after. *)
Lemma loop_body_effect (R : Bot -> Bot -> Prop) (t : replies) :
  (forall s1 s2 s3, fin_same s1 s2 -> R s2 s3 -> R s1 s3) ->
  (forall s1 s2, fin_same s1 s2 -> R s1 s2) ->
  (forall s1 s2 s3, R s1 s2 -> logged_only s2 s3 -> R s1 s3) ->
  effect R (rebalance t) -> effect R (loop_body t).
Proof.
  intros Hpre Hin Hpost Hreb. unfold loop_body.
  apply (effect_then fin_same R R); [exact Hpre|exact Hin| |intros self].
  { apply effect_get. exact fin_same_refl. }
  apply (effect_then fin_same R R); [exact Hpre|exact Hin| |intros price].
  { apply (effect_weaken logged_only _ _ logged_only_fin_same).
    apply get_current_price_logged_only. }
  apply (effect_then R logged_only R); [exact Hpost|auto| |intros _].
  2: { apply sleep_logged_only. }
  destruct (truthy price).
  2: { apply effect_ret. intros s. apply Hin, fin_same_refl. }
  repeat match goal with
    | |- effect R (bind (calculate_rebalance_action _) _) => fail 1
    | |- effect R (bind _ _) =>
        apply (effect_then fin_same R R);
        [exact Hpre|exact Hin| |intros ?]
    end.
  all: try exact Hreb.
  all: effect_steps fin_same_refl fin_same_trans logged_only_fin_same;
    apply effect_modify; intros s; repeat split.
Qed.

Lemma rebalance_one_trade (t : replies) : effect one_trade (rebalance t).
Proof.
  intros s.
  destruct (rebalance_run t s) as (act & s1 & E & Hlog & Hcase).
  destruct act as [a|].
  - destruct Hcase as (s' & Ereb & _ & Hcase).
    pose proof (rebalance_alone_ext_same t s) as (_ & Hcur & _).
    pose proof (rebalance_config_same t s) as (_ & _ & _ & Htk).
    rewrite Ereb in *. simpl in *.
    destruct (submit_order t) as [u|].
    + destruct (calculate_rebalance_action_some _ _ _ _ E)
        as (ip & cp & pos & _ & _ & Hc & _ & _ & Hbr).
      destruct (Hcase cp Hc) as (Htr & _).
      right. eexists. split; [exact Htr|]. simpl.
      split; [|split; congruence].
      destruct Hbr as [(_ & _ & _ & ->)|(_ & _ & _ & Hq & ->)]; simpl; lia.
    + left. destruct Hcase as [l ->]. reflexivity.
  - rewrite Hcase. simpl. left. destruct Hlog as [l ->]. reflexivity.
Qed.

(** X7. Whatever state it starts from and whatever the broker answers, a
    pass of the loop records at most one trade, and a trade it records is
    of at least one share, at the current price of the session, on its
    ticker. *)
Theorem pass_records_at_most_one_trade (t : replies) (s : Bot) :
  let s' := snd (loop_body t s) in
  trades_today s' = trades_today s
  \/ exists tr,
       trades_today s' = trades_today s ++ [tr]
       /\ (1 <= trade_qty tr)%Z
       /\ trade_price tr = current_price s'
       /\ trade_ticker tr = ticker s'.
Proof.
  apply (loop_body_effect one_trade t).
  - intros s1 s2 s3 (_ & H & _) [H23|(tr & H23 & Hrest)].
    + left. congruence.
    + right. exists tr. split; [congruence|exact Hrest].
  - intros s1 s2 (_ & H & _). left. exact H.
  - intros s1 s2 s3 H [l ->]. exact H.
  - apply rebalance_one_trade.
Qed.

(** ** What the loop keeps *)

Lemma append_only_refl (s : Bot) : append_only s s.
Proof. split; exists []; symmetry; apply app_nil_r. Qed.

Lemma append_only_trans (s1 s2 s3 : Bot) :
  append_only s1 s2 -> append_only s2 s3 -> append_only s1 s3.
Proof.
  intros [[a1 A1] [b1 B1]] [[a2 A2] [b2 B2]]. split.
  - exists (a1 ++ a2). rewrite A2, A1, app_assoc. reflexivity.
  - exists (b1 ++ b2). rewrite B2, B1, app_assoc. reflexivity.
Qed.

Lemma logged_only_append_only (s s' : Bot) :
  logged_only s s' -> append_only s s'.
Proof.
  intros [l ->]. split; [exists []|exists l]; simpl;
    [symmetry; apply app_nil_r|reflexivity].
Qed.

Lemma execute_rebalance_append_only (a : action_dict) (o : reply unit)
  (now : Z) : effect append_only (execute_rebalance a o now).
Proof.
  intros s. split.
  - destruct o as [u|].
    + eexists. apply execute_rebalance_records.
    + rewrite execute_rebalance_raised. exists []. simpl.
      symmetry. apply app_nil_r.
  - apply execute_rebalance_log_extends.
Qed.

Lemma loop_body_append_only (t : replies) : effect append_only (loop_body t).
Proof.
  unfold loop_body.
  effect_steps append_only_refl append_only_trans logged_only_append_only;
    first [ apply execute_rebalance_append_only
          | apply effect_modify; intros s; apply logged_only_append_only;
            apply logged_only_refl
          | apply effect_modify; intros s; split; exists [];
            symmetry; apply app_nil_r ].
Qed.

Lemma while_loop_append_only (ticks : list replies) :
  effect append_only (while_loop ticks).
Proof.
  induction ticks as [|t rest IH]; simpl.
  - apply effect_raise. exact append_only_refl.
  - apply effect_bind; [exact append_only_trans| |intros self].
    { apply effect_get. exact append_only_refl. }
    apply effect_bind; [exact append_only_trans| |intros continue].
    { destruct (is_running self).
      - apply (effect_weaken logged_only _ _ logged_only_append_only).
        apply is_market_open_logged_only.
      - apply effect_ret. exact append_only_refl. }
    destruct continue.
    + apply effect_bind; [exact append_only_trans| |intros _].
      * apply loop_body_append_only.
      * exact IH.
    + apply effect_ret. exact append_only_refl.
Qed.

(** X8. The ledger and the logger are append-only over the loop: after
    any number of passes, from any state and however the loop ends, the
    earlier ledger is a prefix of the ledger and the earlier log a prefix
    of the log. *)
Theorem loop_only_appends (ticks : list replies) (s : Bot) :
  (exists l,
     trades_today (snd (while_loop ticks s)) = trades_today s ++ l)
  /\ (exists l, logger (snd (while_loop ticks s)) = logger s ++ l).
Proof. apply while_loop_append_only. Qed.

(** X9. The loop never changes the reference price, the two thresholds or
    the ticker: after any number of passes, from any state and however the
    loop ends, they are what they were. *)
Theorem loop_keeps_the_reference (ticks : list replies) (s : Bot) :
  let s' := snd (while_loop ticks s) in
  initial_price s' = initial_price s
  /\ gain_threshold s' = gain_threshold s
  /\ loss_threshold s' = loss_threshold s
  /\ ticker s' = ticker s.
Proof.
  apply (reachable_config_same s).
  apply while_loop_reachable, reach_start.
Qed.

(** ** Sells and buys take turns *)

Lemma even_succ_negb (n : nat) : Nat.even (S n) = negb (Nat.even n).
Proof. rewrite Nat.even_succ, <- Nat.negb_even. reflexivity. Qed.

Lemma reserve_update_books_in_step (s s' : Bot) :
  books_in_step s -> reserve_update s s' -> books_in_step s'.
Proof.
  intros (Hturn & Heven & Hodd) [Ha Hb|tr Ha Hb Hc Hd|tr Ha Hb Hc Hd].
  - unfold books_in_step. rewrite Ha, Hb. repeat split; assumption.
  - assert (He : Nat.even (List.length (trades_today s)) = true).
    { destruct (Nat.even (List.length (trades_today s))) eqn:E;
        [reflexivity|].
      specialize (Hodd eq_refl). rewrite Hc in Hodd. discriminate. }
    unfold books_in_step. rewrite Ha, List.length_app. simpl.
    rewrite Nat.add_1_r, even_succ_negb, He. simpl.
    split; [|split; [discriminate|intros _; exact Hd]].
    intros i tr' Hi.
    destruct (Nat.lt_ge_cases i (List.length (trades_today s))) as [Hlt|Hge].
    + rewrite nth_error_app1 in Hi by exact Hlt. apply Hturn. exact Hi.
    + rewrite nth_error_app2 in Hi by exact Hge.
      destruct (i - List.length (trades_today s))%nat as [|k] eqn:Ek.
      * simpl in Hi. injection Hi as <-.
        assert (i = List.length (trades_today s)) by lia. subst i.
        unfold turn. rewrite He. exact Hb.
      * simpl in Hi. destruct k; discriminate.
  - assert (He : Nat.even (List.length (trades_today s)) = false).
    { destruct (Nat.even (List.length (trades_today s))) eqn:E;
        [|reflexivity].
      specialize (Heven eq_refl). rewrite Heven in Hc. discriminate. }
    unfold books_in_step. rewrite Ha, List.length_app. simpl.
    rewrite Nat.add_1_r, even_succ_negb, He. simpl.
    split; [|split; [intros _; rewrite Hd; reflexivity|discriminate]].
    intros i tr' Hi.
    destruct (Nat.lt_ge_cases i (List.length (trades_today s))) as [Hlt|Hge].
    + rewrite nth_error_app1 in Hi by exact Hlt. apply Hturn. exact Hi.
    + rewrite nth_error_app2 in Hi by exact Hge.
      destruct (i - List.length (trades_today s))%nat as [|k] eqn:Ek.
      * simpl in Hi. injection Hi as <-.
        assert (i = List.length (trades_today s)) by lia. subst i.
        unfold turn. rewrite He. exact Hb.
      * simpl in Hi. destruct k; discriminate.
Qed.

(** X10. In a session with a positive reference price that starts with an
    empty ledger and no reserve, in every state any sequence of market
    checks and passes leads to, sells and buys take turns in the ledger,
    the first trade being a sell; the reserve is zero when the number of
    trades is even and strictly positive when it is odd.  So the bot never
    sells twice without a buy in between, and never buys before a sell. *)
Theorem sells_and_buys_take_turns (s0 s : Bot) (r : Q) :
  initial_price s0 = Some r -> 0 < r ->
  gain_threshold s0 = 0.05 ->
  trades_today s0 = [] -> cash_reserve s0 == 0 ->
  reachable s0 s ->
  (forall i tr, nth_error (trades_today s) i = Some tr ->
                trade_side tr = (if Nat.even i then sell else buy))
  /\ (Nat.even (List.length (trades_today s)) = true ->
      cash_reserve s == 0)
  /\ (Nat.even (List.length (trades_today s)) = false ->
      0 < cash_reserve s).
Proof.
  intros Hi Hr Hg Htr Hres Hreach.
  change (books_in_step s).
  induction Hreach as [|c s H IH|t s H IH].
  - unfold books_in_step. rewrite Htr. simpl.
    split; [|split; [intros _; exact Hres|discriminate]].
    intros [|i] tr E; discriminate.
  - destruct (is_market_open_logged_only c s) as [l ->]. exact IH.
  - apply (reserve_update_books_in_step s); [exact IH|].
    destruct (reachable_config_same s0 s H) as (Ci & Cg & _).
    apply loop_body_updates; [exists r; split; congruence | congruence].
Qed.

(** A gain pass, then a loss pass: two trades, and no reserve left. *)
Lemma sells_and_buys_take_turns_witness :
  (forall i tr,
     nth_error
       (trades_today
          (snd (loop_body (pass_at 85 95)
                  (snd (loop_body (pass_at 110 100)
                          (session_at 100 100 0)))))) i = Some tr ->
     trade_side tr = (if Nat.even i then sell else buy))
  /\ cash_reserve
       (snd (loop_body (pass_at 85 95)
               (snd (loop_body (pass_at 110 100) (session_at 100 100 0)))))
     == 0.
Proof.
  destruct (sells_and_buys_take_turns (session_at 100 100 0)
              (snd (loop_body (pass_at 85 95)
                      (snd (loop_body (pass_at 110 100)
                              (session_at 100 100 0))))) 100)
    as (Hturn & Heven & _);
    [reflexivity|reflexivity|reflexivity|reflexivity|reflexivity| |].
  - apply reach_body, reach_body, reach_start.
  - split; [exact Hturn|]. apply Heven. vm_compute. reflexivity.
Defined.

(** ** What a pass can raise *)

Lemma rebalance_returns (t : replies) (s : Bot) :
  fst (rebalance t s) = Val tt.
Proof.
  destruct (rebalance_run t s) as (act & s1 & E & _ & Hcase).
  destruct act as [a|].
  - destruct Hcase as (s' & -> & _). reflexivity.
  - rewrite Hcase. reflexivity.
Qed.

Lemma loop_body_returns (r : Q) (t : replies) (s : Bot) :
  ~ r == 0 -> extremes_hold r s -> fst (loop_body t s) = Val tt.
Proof.
  intros Hr0 (Hi & c & h & l & Hc & Hh & Hl & _).
  destruct (get_latest_trade t) as [p|] eqn:Ht.
  - destruct (Qeq_dec p 0) as [Hp|Hp].
    + rewrite (loop_body_zero_price t s p Ht Hp). reflexivity.
    + destruct (loop_body_priced t s p r h l Ht Hp Hi Hr0 Hh Hl)
        as (s1 & _ & ->).
      unfold bind. pose proof (rebalance_returns t s1) as H.
      destruct (rebalance t s1) as [o s2]. simpl in H. subst o.
      reflexivity.
  - rewrite (loop_body_no_price t s Ht). reflexivity.
Qed.

(** X11. From the state [start_monitoring] sets up on a first quote that
    is not zero, through any sequence of market checks and passes, the
    reference price stays that quote and the current price and both
    extremes stay numbers; so no pass of the loop raises
    [ZeroDivisionError] (it divides by the reference price) or [TypeError]
    (it compares and subtracts prices), whatever the broker answers. *)
Theorem pass_divides_and_compares_numbers
  (s0 s : Bot) (r : Q) (t : replies) :
  initial_price s0 = Some r -> ~ r == 0 ->
  current_price s0 = Some r ->
  daily_high s0 = Some r -> daily_low s0 = Some r ->
  reachable s0 s ->
  initial_price s = Some r
  /\ (exists c h l,
        current_price s = Some c /\ daily_high s = Some h
        /\ daily_low s = Some l)
  /\ fst (loop_body t s) <> Exc ZeroDivisionError
  /\ fst (loop_body t s) <> Exc TypeError.
Proof.
  intros Hi Hr0 Hc Hh Hl Hreach.
  assert (H0 : extremes_hold r s0).
  { split; [exact Hi|]. exists r, r, r.
    repeat split; try assumption; apply Qle_refl. }
  pose proof (reachable_extremes r s0 s H0 Hreach) as [Hs _].
  pose proof (loop_body_returns r t s Hr0 Hs) as Hv.
  destruct Hs as (Hi' & c & h & l & Hc' & Hh' & Hl' & _).
  split; [exact Hi'|]. split; [exists c, h, l; repeat split; assumption|].
  rewrite Hv. split; discriminate.
Qed.

(** A gain pass, then a pass whose position lookups raise. *)
Lemma pass_divides_and_compares_numbers_witness :
  initial_price (snd (loop_body (pass_at 110 100) (session_at 100 100 0)))
    = Some 100
  /\ fst (loop_body (pass_without_position 85)
            (snd (loop_body (pass_at 110 100) (session_at 100 100 0))))
     <> Exc ZeroDivisionError.
Proof.
  destruct (pass_divides_and_compares_numbers (session_at 100 100 0)
              (snd (loop_body (pass_at 110 100) (session_at 100 100 0)))
              100 (pass_without_position 85)
              eq_refl) as (H1 & _ & H2 & _);
    [discriminate|reflexivity|reflexivity|reflexivity| |].
  - apply reach_body, reach_start.
  - split; [exact H1|exact H2].
Defined.

(** ** Starting and stopping *)

Lemma stop_monitoring_stops (fin : reply (list api_position))
  (acc : reply account_dict) (s : Bot) :
  is_running (snd (stop_monitoring fin acc s)) = false
  /\ In (INFO, stopped) (logger (snd (stop_monitoring fin acc s)))
  /\ config_same s (snd (stop_monitoring fin acc s)).
Proof.
  assert (Hin : In (INFO, stopped) (logger s ++ [(INFO, stopped)])).
  { apply in_or_app. right. left. reflexivity. }
  unfold stop_monitoring, bind, modify, log, get. simpl.
  destruct (ticker s) as [[|c name]|] eqn:Etk; simpl;
    try (repeat split; solve [assumption|reflexivity]).
  destruct (print_daily_summary_logged_only fin acc
              (set_logger (logger s ++ [(INFO, stopped)])
                 (set_is_running false s))) as [l Hl].
  rewrite Hl. simpl.
  split; [reflexivity|]. split; [|repeat split].
  apply in_or_app. left. exact Hin.
Qed.

(** What [start_monitoring] has done when it enters the loop. *)
Lemma start_monitoring_enters (name : string) (p : Q)
  (fp : reply (list api_position)) (ticks : list replies)
  (fin : reply (list api_position)) (acc : reply account_dict) (s : Bot) :
  ~ p == 0 ->
  exists s0,
    start_monitoring name (Returned p) fp ticks fin acc s =
      (try_except (while_loop ticks)
         (fun e =>
            match e with
            | KeyboardInterrupt => Some (log INFO stopped_by_user)
            | _ => Some (log ERROR (loop_error e))
            end) ;;
       stop_monitoring fin acc) s0
    /\ initial_price s0 = Some p /\ current_price s0 = Some p
    /\ daily_high s0 = Some p /\ daily_low s0 = Some p
    /\ ticker s0 = Some (upper name) /\ is_running s0 = true
    /\ cash_reserve s0 = cash_reserve s
    /\ trades_today s0 = trades_today s
    /\ gain_threshold s0 = gain_threshold s.
Proof.
  intros Hp. apply Qeq_bool_false_iff in Hp.
  destruct s as [tk ip cp dh dl ps cr g lo tr run lg].
  unfold start_monitoring, bind, modify, get, log, ret, get_current_price.
  simpl. rewrite Hp. simpl.
  destruct fp as [l|]; simpl; [destruct (first_match l (Some (upper name)))|];
    simpl; (eexists; split; [reflexivity|]); simpl; repeat split.
Qed.

Lemma start_monitoring_no_quote (name : string)
  (fp : reply (list api_position)) (ticks : list replies)
  (fin : reply (list api_position)) (acc : reply account_dict) (s : Bot) :
  start_monitoring name Raised fp ticks fin acc s =
    (Val tt,
     set_logger
       (logger s ++
          [(INFO, starting (Some (upper name)));
           (ERROR, price_error (Some (upper name)));
           (ERROR, no_initial_price (Some (upper name)))])
       (set_initial_price None (set_ticker (Some (upper name)) s))).
Proof.
  destruct s.
  unfold start_monitoring, bind, modify, get, log, ret, get_current_price.
  simpl. unfold set_logger, set_initial_price, set_ticker, modify. simpl.
  rewrite <- !app_assoc. reflexivity.
Qed.

Lemma start_monitoring_zero_quote (name : string) (p : Q)
  (fp : reply (list api_position)) (ticks : list replies)
  (fin : reply (list api_position)) (acc : reply account_dict) (s : Bot) :
  p == 0 ->
  start_monitoring name (Returned p) fp ticks fin acc s =
    (Val tt,
     set_logger
       (logger s ++
          [(INFO, starting (Some (upper name)));
           (ERROR, no_initial_price (Some (upper name)))])
       (set_initial_price (Some p) (set_ticker (Some (upper name)) s))).
Proof.
  intros Hp. apply Qeq_bool_iff in Hp. destruct s.
  unfold start_monitoring, bind, modify, get, log, ret, get_current_price.
  simpl. rewrite Hp. simpl.
  unfold set_logger, set_initial_price, set_ticker, modify. simpl.
  rewrite <- !app_assoc. reflexivity.
Qed.

(** X12. When the first price lookup raises or quotes 0, [start_monitoring]
    logs that there is no initial price and returns at once: the loop is
    not entered, [stop_monitoring] is not called, and whatever the other
    answers of the broker would have been, only the ticker, the reference
    price and the logger of the bot have changed. *)
Theorem unusable_first_quote_starts_nothing
  (name : string) (first : reply Q) (fp : reply (list api_position))
  (ticks : list replies) (fin : reply (list api_position))
  (acc : reply account_dict) (s : Bot) :
  (first = Raised ->
   start_monitoring name first fp ticks fin acc s =
     (Val tt,
      set_logger
        (logger s ++
           [(INFO, starting (Some (upper name)));
            (ERROR, price_error (Some (upper name)));
            (ERROR, no_initial_price (Some (upper name)))])
        (set_initial_price None (set_ticker (Some (upper name)) s))))
  /\ (forall p, first = Returned p -> p == 0 ->
      start_monitoring name first fp ticks fin acc s =
        (Val tt,
         set_logger
           (logger s ++
              [(INFO, starting (Some (upper name)));
               (ERROR, no_initial_price (Some (upper name)))])
           (set_initial_price (Some p)
              (set_ticker (Some (upper name)) s)))).
Proof.
  split.
  - intros ->. apply start_monitoring_no_quote.
  - intros p -> Hp. apply start_monitoring_zero_quote. exact Hp.
Qed.

Lemma unusable_first_quote_starts_nothing_witness :
  is_running
    (snd (start_monitoring "aapl" Raised (holds 100) [pass_at 110 100]
            (holds 95) no_account init)) = false
  /\ trades_today
       (snd (start_monitoring "aapl" (Returned 0) (holds 100)
               [pass_at 110 100] (holds 95) no_account init)) = [].
Proof.
  destruct (unusable_first_quote_starts_nothing "aapl" Raised (holds 100)
              [pass_at 110 100] (holds 95) no_account init) as [H1 _].
  destruct (unusable_first_quote_starts_nothing "aapl" (Returned 0)
              (holds 100) [pass_at 110 100] (holds 95) no_account init)
    as [_ H2].
  rewrite (H1 eq_refl), (H2 0 eq_refl (Qeq_refl 0)). split; reflexivity.
Defined.

(** X13. When the first quote is not zero, [start_monitoring] goes through
    [stop_monitoring] for every bot and every sequence of answers of the
    broker: what the loop raises, the interrupt included, is caught.  It
    leaves the bot stopped: [is_running] is false and "Monitoring stopped"
    is logged, the reference price is the first quote, the ticker is the
    upper-cased name, and the earlier ledger is a prefix of the ledger.
    (Whether the call then returns depends on the summary, which raises on
    a ledger entry without a price.) *)
Theorem start_monitoring_leaves_stopped
  (name : string) (p : Q) (fp : reply (list api_position))
  (ticks : list replies) (fin : reply (list api_position))
  (acc : reply account_dict) (s : Bot) :
  ~ p == 0 ->
  let s' := snd (start_monitoring name (Returned p) fp ticks fin acc s) in
  is_running s' = false
  /\ In (INFO, stopped) (logger s')
  /\ initial_price s' = Some p
  /\ ticker s' = Some (upper name)
  /\ exists l, trades_today s' = trades_today s ++ l.
Proof.
  intros Hp s'. unfold s'.
  destruct (start_monitoring_enters name p fp ticks fin acc s Hp)
    as (s0 & -> & Hi & _ & _ & _ & Htk & _ & _ & Htr & _).
  unfold bind at 1 2 3 4 5.
  assert (Hloop : exists o s2,
            try_except (while_loop ticks)
              (fun e =>
                 match e with
                 | KeyboardInterrupt => Some (log INFO stopped_by_user)
                 | _ => Some (log ERROR (loop_error e))
                 end) s0 = (Val o, s2)
            /\ config_same s0 s2
            /\ exists l, trades_today s2 = trades_today s0 ++ l).
  { unfold try_except.
    assert (Hcfg : config_same s0 (snd (while_loop ticks s0))).
    { apply reachable_config_same, while_loop_reachable, reach_start. }
    pose proof (while_loop_append_only ticks s0) as [Happ _].
    destruct (while_loop ticks s0) as [[u|e] s1]; simpl in *.
    - exists u, s1. split; [reflexivity|]. split; [exact Hcfg|exact Happ].
    - destruct e; simpl; eexists; eexists; (split; [reflexivity|]); simpl;
        (split; [exact Hcfg|exact Happ]). }
  destruct Hloop as (o & s2 & -> & (Ci & _ & _ & Ct) & (l & Hl)).
  destruct (stop_monitoring_stops fin acc s2)
    as (Hr & Hin & (Di & _ & _ & Dt)).
  pose proof (stop_monitoring_frames fin acc s2) as (_ & (_ & Dtr & _)).
  repeat split; try assumption; try congruence.
  exists l. congruence.
Qed.

Lemma start_monitoring_leaves_stopped_witness :
  is_running
    (snd (start_monitoring "aapl" (Returned 100) (holds 100)
            [pass_at 110 100] (holds 95) no_account init)) = false
  /\ ticker
       (snd (start_monitoring "aapl" (Returned 100) (holds 100)
               [pass_at 110 100] (holds 95) no_account init))
     = Some "AAPL"%string.
Proof.
  destruct (start_monitoring_leaves_stopped "aapl" 100 (holds 100)
              [pass_at 110 100] (holds 95) no_account init)
    as (H1 & _ & _ & H4 & _); [discriminate|].
  split; [exact H1|exact H4].
Defined.

(** ** The extremes are quoted prices *)

(** After a pass, each extreme is what it was or the quote of the pass. *)
Lemma loop_body_extremes_quoted (r h l : Q) (t : replies) (s : Bot) :
  extremes_hold r s -> daily_high s = Some h -> daily_low s = Some l ->
  exists h' l',
    daily_high (snd (loop_body t s)) = Some h'
    /\ daily_low (snd (loop_body t s)) = Some l'
    /\ (h' = h \/ get_latest_trade t = Returned h')
    /\ (l' = l \/ get_latest_trade t = Returned l').
Proof.
  intros (Hi & c & h0 & l0 & Hc & Hh0 & Hl0 & _) Hh Hl.
  assert (h0 = h) by congruence. assert (l0 = l) by congruence. subst.
  assert (Hsame : forall s', ext_same s s' ->
            exists h' l',
              daily_high s' = Some h' /\ daily_low s' = Some l'
              /\ (h' = h \/ get_latest_trade t = Returned h')
              /\ (l' = l \/ get_latest_trade t = Returned l')).
  { intros s' (_ & _ & Eh & El). exists h, l.
    repeat split; try congruence; left; reflexivity. }
  assert (Hobs : forall p s', get_latest_trade t = Returned p ->
            ext_same (observe p h l s) s' ->
            exists h' l',
              daily_high s' = Some h' /\ daily_low s' = Some l'
              /\ (h' = h \/ get_latest_trade t = Returned h')
              /\ (l' = l \/ get_latest_trade t = Returned l')).
  { intros p s' Ht (_ & _ & Eh & El).
    exists (if Qlt_bool h p then p else h), (if Qlt_bool p l then p else l).
    split; [rewrite Eh; reflexivity|]. split; [rewrite El; reflexivity|].
    split.
    - destruct (Qlt_bool h p); [right; exact Ht|left; reflexivity].
    - destruct (Qlt_bool p l); [right; exact Ht|left; reflexivity]. }
  destruct (get_latest_trade t) as [p|] eqn:Ht.
  - destruct (Qeq_dec p 0) as [Hp|Hp].
    + rewrite (loop_body_zero_price t s p Ht Hp).
      exact (Hsame s (ext_same_refl s)).
    + destruct (Qeq_dec r 0) as [Hr0|Hr0].
      * rewrite (loop_body_zero_reference t s p r h l Ht Hp Hi Hr0 Hh Hl).
        exact (Hobs p (observe p h l s) eq_refl (ext_same_refl _)).
      * destruct (loop_body_priced t s p r h l Ht Hp Hi Hr0 Hh Hl)
          as (s1 & Hlog & ->).
        apply (Hobs p); [reflexivity|].
        apply ext_same_trans with s1.
        -- apply logged_only_ext_same. exact Hlog.
        -- apply rebalance_ext_same.
  - rewrite (loop_body_no_price t s Ht).
    exact (Hsame _ (logged_only_ext_same _ _
                      (logged_only_log s ERROR (price_error (ticker s))))).
Qed.

Lemma quotes_cons_incl (t : replies) (rest : list replies) (x : Q) :
  In x (quotes rest) \/ get_latest_trade t = Returned x ->
  In x (quotes (t :: rest)).
Proof.
  simpl. intros [H|H].
  - destruct (get_latest_trade t); [right|]; exact H.
  - rewrite H. left. reflexivity.
Qed.

Lemma while_loop_extremes_quoted (r : Q) (ticks : list replies) :
  forall (s : Bot) (h l : Q),
    extremes_hold r s -> daily_high s = Some h -> daily_low s = Some l ->
    exists h' l',
      daily_high (snd (while_loop ticks s)) = Some h'
      /\ daily_low (snd (while_loop ticks s)) = Some l'
      /\ (h' = h \/ In h' (quotes ticks))
      /\ (l' = l \/ In l' (quotes ticks)).
Proof.
  induction ticks as [|t rest IH]; intros s h l Hext Hh Hl.
  - simpl. exists h, l. repeat split; try assumption; left; reflexivity.
  - assert (Hstay : exists h' l',
              daily_high s = Some h' /\ daily_low s = Some l'
              /\ (h' = h \/ In h' (quotes (t :: rest)))
              /\ (l' = l \/ In l' (quotes (t :: rest)))).
    { exists h, l. repeat split; try assumption; left; reflexivity. }
    destruct (is_running s) eqn:Hrun.
    + destruct (get_clock t) as [c|] eqn:Hclk.
      * rewrite (while_loop_passes_when_open t rest s c Hrun Hclk).
        unfold bind.
        destruct (loop_body_extremes_quoted r h l t s Hext Hh Hl)
          as (h1 & l1 & Hh1 & Hl1 & Qh & Ql).
        destruct (loop_body_extremes r t s Hext) as [Hext1 _].
        destruct (loop_body t s) as [[u|e] s1]; simpl in *.
        -- destruct (IH s1 h1 l1 Hext1 Hh1 Hl1)
             as (h2 & l2 & Hh2 & Hl2 & Qh2 & Ql2).
           exists h2, l2. split; [exact Hh2|]. split; [exact Hl2|]. split.
           ++ destruct Qh2 as [->|Hin].
              ** destruct Qh as [->|Hq]; [left; reflexivity|].
                 right. apply quotes_cons_incl. right. exact Hq.
              ** right. apply quotes_cons_incl. left. exact Hin.
           ++ destruct Ql2 as [->|Hin].
              ** destruct Ql as [->|Hq]; [left; reflexivity|].
                 right. apply quotes_cons_incl. right. exact Hq.
              ** right. apply quotes_cons_incl. left. exact Hin.
        -- exists h1, l1. split; [exact Hh1|]. split; [exact Hl1|]. split.
           ++ destruct Qh as [->|Hq]; [left; reflexivity|].
              right. apply quotes_cons_incl. right. exact Hq.
           ++ destruct Ql as [->|Hq]; [left; reflexivity|].
              right. apply quotes_cons_incl. right. exact Hq.
      * rewrite (while_loop_stops_when_closed t rest s Hrun Hclk).
        exact Hstay.
    + assert (E : while_loop (t :: rest) s = (Val tt, s)).
      { simpl. unfold bind, get. rewrite Hrun. reflexivity. }
      rewrite E. exact Hstay.
Qed.

(** X14. From the state [start_monitoring] sets up, after any number of
    passes, the daily high is the reference price or one of the prices
    quoted in these passes, and so is the daily low: the extremes are
    prices that were observed, not only bounds. *)
Theorem daily_extremes_are_observed
  (s0 : Bot) (r : Q) (ticks : list replies) :
  initial_price s0 = Some r -> current_price s0 = Some r ->
  daily_high s0 = Some r -> daily_low s0 = Some r ->
  exists h l,
    daily_high (snd (while_loop ticks s0)) = Some h
    /\ daily_low (snd (while_loop ticks s0)) = Some l
    /\ In h (r :: quotes ticks)
    /\ In l (r :: quotes ticks).
Proof.
  intros Hi Hc Hh Hl.
  assert (H0 : extremes_hold r s0).
  { split; [exact Hi|]. exists r, r, r.
    repeat split; try assumption; apply Qle_refl. }
  destruct (while_loop_extremes_quoted r ticks s0 r r H0 Hh Hl)
    as (h & l & Hh' & Hl' & Qh & Ql).
  exists h, l. split; [exact Hh'|]. split; [exact Hl'|]. split.
  - destruct Qh as [->|Hin]; [left; reflexivity|right; exact Hin].
  - destruct Ql as [->|Hin]; [left; reflexivity|right; exact Hin].
Qed.

(** Reference 100; quotes 110 and 85. *)
Lemma daily_extremes_are_observed_witness :
  exists h l,
    daily_high (snd (while_loop [pass_at 110 100; pass_at 85 95]
                       (session_at 100 100 0))) = Some h
    /\ daily_low (snd (while_loop [pass_at 110 100; pass_at 85 95]
                         (session_at 100 100 0))) = Some l
    /\ In h (100 :: quotes [pass_at 110 100; pass_at 85 95])
    /\ In l (100 :: quotes [pass_at 110 100; pass_at 85 95]).
Proof.
  apply (daily_extremes_are_observed (session_at 100 100 0) 100
           [pass_at 110 100; pass_at 85 95]); reflexivity.
Defined.

(** ** The price a trade is recorded at *)

Lemma bind_get {A} (k : Bot -> M A) (s : Bot) : bind get k s = k s s.
Proof. reflexivity. Qed.

Lemma bind_ret {A B} (a : A) (k : A -> M B) (s : Bot) :
  bind (ret a) k s = k a s.
Proof. reflexivity. Qed.

Lemma execute_rebalance_current_price (a : action_dict) (o : reply unit)
  (now : Z) (s : Bot) :
  current_price (snd (execute_rebalance a o now s)) = current_price s.
Proof. apply (execute_rebalance_ext_same a o now s). Qed.

(** A pass that is quoted a price other than zero leaves it as the current
    price, from any state and however the pass ends. *)
Lemma loop_body_takes_the_quote (t : replies) (s : Bot) (p : Q) :
  get_latest_trade t = Returned p -> ~ p == 0 ->
  current_price (snd (loop_body t s)) = Some p.
Proof.
  intros Ht Hp. apply Qeq_bool_false_iff in Hp.
  unfold loop_body. rewrite bind_get. rewrite Ht. simpl get_current_price.
  rewrite bind_ret. simpl truthy. rewrite Hp. simpl negb. cbv iota.
  revert s.
  match goal with
  | |- forall s, current_price (snd (?m s)) = _ =>
      change (effect (fun _ s' => current_price s' = Some p) m)
  end.
  apply (effect_then (fun _ s' => current_price s' = Some p) logged_only
           (fun _ s' => current_price s' = Some p));
    [intros s1 s2 s3 H [l ->]; exact H|auto| |intros _; apply sleep_logged_only].
  apply (effect_then (fun _ s' => current_price s' = Some p)
           (fun s s' => current_price s' = current_price s)
           (fun _ s' => current_price s' = Some p));
    [intros s1 s2 s3 H1 H2; congruence|auto| |intros _].
  - intros s. reflexivity.
  - effect_steps (fun s : Bot => eq_refl (current_price s))
      (fun (s1 s2 s3 : Bot) (H1 : current_price s2 = current_price s1)
           (H2 : current_price s3 = current_price s2) => eq_trans H2 H1)
      (fun (s s' : Bot) (H : logged_only s s') =>
         match H with
         | ex_intro _ l E =>
             eq_trans (f_equal current_price E) (eq_refl (current_price s))
         end);
      first [ intros s; apply execute_rebalance_current_price
            | apply effect_modify; intros s; reflexivity ].
Qed.

(** X15. Whatever state a pass starts from, a trade it appends to the
    ledger was decided on a quote of this very pass: the pass was quoted a
    price other than zero, the trade is recorded at that price, for at
    least one share. *)
Theorem recorded_trade_carries_the_quote
  (t : replies) (s : Bot) (tr : trade) :
  trades_today (snd (loop_body t s)) = trades_today s ++ [tr] ->
  exists p,
    get_latest_trade t = Returned p /\ ~ p == 0
    /\ trade_price tr = Some p
    /\ (1 <= trade_qty tr)%Z.
Proof.
  intros Happ.
  assert (Hno : trades_today (snd (loop_body t s)) <> trades_today s).
  { rewrite Happ. apply app_one_neq. }
  destruct (get_latest_trade t) as [p|] eqn:Ht.
  - destruct (Qeq_dec p 0) as [Hp|Hp].
    + exfalso. apply Hno.
      rewrite (loop_body_zero_price t s p Ht Hp). reflexivity.
    + exists p. split; [reflexivity|]. split; [exact Hp|].
      pose proof (loop_body_takes_the_quote t s p Ht Hp) as Hcur.
      assert (Hone : one_trade s (snd (loop_body t s))).
      { apply (loop_body_effect one_trade t).
        - intros s1 s2 s3 (_ & H & _) [H23|(tr' & H23 & Hrest)].
          + left. congruence.
          + right. exists tr'. split; [congruence|exact Hrest].
        - intros s1 s2 (_ & H & _). left. exact H.
        - intros s1 s2 s3 H [l ->]. exact H.
        - apply rebalance_one_trade. }
      destruct Hone as [H|(tr' & Htr' & Hq & Hprice & _)];
        [contradiction|].
      rewrite Htr' in Happ. apply app_inj_tail in Happ.
      destruct Happ as [_ <-]. split; [congruence|exact Hq].
  - exfalso. apply Hno. rewrite (loop_body_no_price t s Ht). reflexivity.
Qed.

Lemma recorded_trade_carries_the_quote_witness :
  exists p,
    get_latest_trade (pass_at 110 100) = Returned p /\ ~ p == 0
    /\ trade_price
         {| timestamp := 0; trade_ticker := Some "AAPL"%string;
            trade_side := sell; trade_qty := 5; trade_price := Some 110;
            trade_reason := sell |} = Some p
    /\ (1 <= 5)%Z.
Proof.
  apply (recorded_trade_carries_the_quote (pass_at 110 100)
           (session_at 100 100 0)
           {| timestamp := 0; trade_ticker := Some "AAPL"%string;
              trade_side := sell; trade_qty := 5; trade_price := Some 110;
              trade_reason := sell |}).
  vm_compute. reflexivity.
Defined.

(** ** No trade inside the band *)

(** X16. With the thresholds of [__init__], a relative change strictly
    between -10% and +5% of the reference price decides nothing:
    [calculate_rebalance_action] returns [None] whatever the reserve and
    the position are. *)
Theorem no_trade_inside_the_band
  (positions : reply (list api_position)) (s : Bot) (r p : Q) :
  initial_price s = Some r -> ~ r == 0 ->
  current_price s = Some p ->
  gain_threshold s = 0.05 -> loss_threshold s = 0.10 ->
  - 0.10 < (p - r) / r -> (p - r) / r < 0.05 ->
  fst (calculate_rebalance_action positions s) = Val None.
Proof.
  intros Hi Hr0 Hc Hg Hl Hlow Hhigh.
  destruct (Qeq_dec p 0) as [Hp|Hp].
  - rewrite calculate_rebalance_action_guard; [reflexivity|].
    right. rewrite Hc. simpl. apply Qeq_bool_iff in Hp. rewrite Hp.
    reflexivity.
  - destruct (get_position_total positions (ticker s) s)
      as (pos & s1 & Epos & _).
    rewrite (calculate_rebalance_action_decides positions s s1 r p pos)
      by assumption.
    simpl. unfold branches. rewrite Hg, Hl.
    rewrite (Qle_bool_false 0.05 ((p - r) / r) Hhigh). simpl.
    assert (E : Qle_bool ((p - r) / r) (Qopp 0.10) = false).
    { apply Qle_bool_false. exact Hlow. }
    rewrite E. reflexivity.
Qed.

(** The scenario of the strategy: reference 100, a reserve of 525, price
    94.50 (-5.5%): nothing is decided. *)
Lemma no_trade_inside_the_band_witness :
  fst (calculate_rebalance_action (holds 95) (session_at 100 94.5 525)) =
    Val None.
Proof.
  apply (no_trade_inside_the_band (holds 95) (session_at 100 94.5 525)
           100 94.5); try reflexivity; discriminate.
Defined.
